(** * Runner's Cycle Coach: the CSV normaliser, the ride metrics and the
      coaching rules of [Runner_Cycle_Coach.py]

    The script parses an uploaded CSV export into a table of
    (timestamp, heart_rate, cadence, power), reduces it to a summary of
    averages and prints rule-based feedback.  This development embeds the
    three helper functions of the script

      - [parse_file]              (lines 25-61),
      - [calculate_metrics]       (lines 63-99),
      - [generate_coach_feedback] (lines 101-128),

    and proves the properties the specification states about them.

    Numbers are the binary64 floats the script computes with (the kernel's
    primitive floats), so every rounding, infinity and NaN of the Python
    program is present in the model.  The pandas and streamlit calls the
    script makes are modelled by what they do on the values involved; the
    three library routines whose behaviour lies outside the script
    ([pd.read_csv], [pd.to_datetime], [pd.to_numeric]) are parameters. *)

From Stdlib Require Import List String Ascii Bool ZArith Lia.
From Stdlib Require Import Uint63 Floats.
Import ListNotations.

Local Open Scope string_scope.
Local Open Scope list_scope.

(** ** Configuration and user zones (lines 10-14) *)

Definition USER_FTP : Z := 242.
Definition Z2_POWER_MIN : Z := 140.
Definition Z2_POWER_MAX : Z := 155.
Definition Z2_HR_CAP : Z := 130.
Definition TARGET_CADENCE : Z := 90.

(** ** Python strings: the [in] operator *)

Module Str.

(** [is_prefix p s]: [s.startswith(p)]. *)
Fixpoint is_prefix (p s : string) : bool :=
  match p, s with
  | EmptyString, _ => true
  | String a p', String b s' => Ascii.eqb a b && is_prefix p' s'
  | String _ _, EmptyString => false
  end.

(** [contains sub s]: the Python test [sub in s], a scan for the first
    position at which [sub] is a prefix of the rest. *)
Fixpoint contains (sub s : string) : bool :=
  is_prefix sub s ||
  match s with
  | EmptyString => false
  | String _ s' => contains sub s'
  end.


End Str.

(** ** The fragment of pandas the script uses *)

Module Pandas.

(** A value held in a table: text, an integer, a float (NaN is pandas'
    missing value, also in a column of text), a parsed timestamp or the
    missing timestamp NaT. *)
Inductive cell : Type :=
| CStr (s : string)
| CInt (z : Z)
| CFloat (f : float)
| CTime (t : Z)
| CNaT.

Definition NaN : cell := CFloat PrimFloat.nan.

(** [pd.isna] on one value. *)
Definition isna (c : cell) : bool :=
  match c with
  | CFloat f => PrimFloat.is_nan f
  | CNaT => true
  | _ => false
  end.

Definition Series : Type := list cell.

(** A DataFrame: its columns in order, each with its name.  [read_csv]
    gives columns of one length with distinct names. *)
Definition DataFrame : Type := list (string * Series).

(** [pd.DataFrame()]. *)
Definition empty_frame : DataFrame := [].

(** [len(df)]. *)
Definition nrows (df : DataFrame) : nat :=
  match df with
  | [] => 0
  | (_, col) :: _ => List.length col
  end.

Definition columns (df : DataFrame) : list string := map fst df.

(** [k in df.columns]. *)
Definition has_column (k : string) (df : DataFrame) : bool :=
  existsb (String.eqb k) (columns df).

(** [df[k]] as a lookup; the caller raises [KeyError] on [None]. *)
Fixpoint column (k : string) (df : DataFrame) : option Series :=
  match df with
  | [] => None
  | (k', col) :: df' => if String.eqb k k' then Some col else column k df'
  end.

(** [df[k] = col]: replaces the column in place, or appends a new one. *)
Fixpoint set_column (k : string) (col : Series) (df : DataFrame) : DataFrame :=
  match df with
  | [] => [(k, col)]
  | (k', col') :: df' =>
      if String.eqb k k' then (k', col) :: df'
      else (k', col') :: set_column k col df'
  end.

(** [s.dropna()]. *)
Definition dropna_series (s : Series) : Series :=
  filter (fun c => negb (isna c)) s.

(** Selection of the entries of a column by a boolean mask, in order. *)
Fixpoint select (mask : list bool) (col : Series) : Series :=
  match mask, col with
  | true :: mask', c :: col' => c :: select mask' col'
  | false :: mask', _ :: col' => select mask' col'
  | _, _ => []
  end.

(** The mask of the rows in which every column of [cols] holds a value. *)
Fixpoint notna_mask (n : nat) (cols : list Series) : list bool :=
  match cols with
  | [] => repeat true n
  | col :: cols' =>
      map (fun '(c, b) => negb (isna c) && b) (combine col (notna_mask n cols'))
  end.

(** Selection of rows by a mask in every column. *)
Definition sel (mask : list bool) (df : DataFrame) : DataFrame :=
  map (fun '(k, col) => (k, select mask col)) df.

(** The columns a list of keys names, in the order of the keys. *)
Definition columns_of (keys : list string) (df : DataFrame) : list Series :=
  flat_map (fun k => match column k df with
                     | Some c => [c]
                     | None => []
                     end) keys.

(** One row of a table, as the values under each column name. *)
Definition row : Type := list (string * cell).

Definition row_at (i : nat) (df : DataFrame) : row :=
  map (fun '(k, col) => (k, nth i col NaN)) df.

(** The rows of a table from the first to the last. *)
Definition rows (df : DataFrame) : list row :=
  map (fun i => row_at i df) (seq 0 (nrows df)).

(** The value of a row under a column name. *)
Fixpoint field (k : string) (r : row) : option cell :=
  match r with
  | [] => None
  | (k', c) :: r' => if String.eqb k k' then Some c else field k r'
  end.

(** A row holds a value under [k]. *)
Definition present (k : string) (r : row) : bool :=
  match field k r with
  | Some c => negb (isna c)
  | None => false
  end.



(** The table without its first row. *)
Definition tails (df : DataFrame) : DataFrame :=
  map (fun '(k, col) => (k, tl col)) df.

(** Every column has [n] entries. *)
Definition well_formed (n : nat) (df : DataFrame) : Prop :=
  Forall (fun kc => List.length (snd kc) = n) df.

End Pandas.

Import Pandas.

(** ** Exceptions and the page

    The script's [try]/[except Exception] and its [st.error] call: a
    computation takes the page shown so far and gives back either a value
    or a raised exception, with the page as it is then. *)

Inductive exn : Type :=
| KeyError (keys : list string)   (* a column that is not in the table *)
| ReadError (msg : string).       (* whatever [pd.read_csv] raises *)

Inductive result (A : Type) : Type :=
| Ok (a : A)
| Raise (e : exn).
Arguments Ok {A} a.
Arguments Raise {A} e.

(** What the page shows: [st.error(f"Error parsing file: {e}")]. *)
Inductive ui_event : Type :=
| StError (e : exn).

Definition M (A : Type) : Type := list ui_event -> result A * list ui_event.

Definition ret {A} (a : A) : M A := fun ui => (Ok a, ui).

Definition bind {A B} (m : M A) (k : A -> M B) : M B :=
  fun ui =>
    match m ui with
    | (Ok a, ui') => k a ui'
    | (Raise e, ui') => (Raise e, ui')
    end.

Definition raise {A} (e : exn) : M A := fun ui => (Raise e, ui).

Definition lift {A} (r : result A) : M A := fun ui => (r, ui).

(** [try: body except Exception as e: handler(e)]. *)
Definition try_except {A} (body : M A) (handler : exn -> M A) : M A :=
  fun ui =>
    match body ui with
    | (Ok a, ui') => (Ok a, ui')
    | (Raise e, ui') => handler e ui'
    end.

Definition st_error (e : exn) : M unit :=
  fun ui => (Ok tt, ui ++ [StError e]).

Declare Scope py_scope.
Delimit Scope py_scope with py.
Notation "x <- m ;; k" := (bind m (fun x => k))
  (at level 61, m at next level, right associativity) : py_scope.
Notation "m ;;; k" := (bind m (fun _ => k))
  (at level 61, right associativity) : py_scope.
Local Open Scope py_scope.

(** [df[k]] on a table: [KeyError] when the column is missing. *)
Definition getitem (k : string) (df : DataFrame) : M Series :=
  match column k df with
  | Some col => ret col
  | None => raise (KeyError [k])
  end.

(** [df.dropna(subset=keys, inplace=True)]: [KeyError] names the columns
    of [keys] that the table does not have; otherwise the rows with a
    missing value under one of [keys] are removed from every column. *)
Definition dropna (keys : list string) (df : DataFrame) : M DataFrame :=
  match filter (fun k => negb (has_column k df)) keys with
  | [] => ret (sel (notna_mask (nrows df) (columns_of keys df)) df)
  | missing => raise (KeyError missing)
  end.

(** ** [parse_file] (lines 25-61) *)

Section ParseFile.

(** The uploaded file and the three pandas routines applied to it:
    [pd.read_csv(uploaded_file, on_bad_lines='skip', low_memory=False)],
    [pd.to_datetime(col, errors='coerce')] and
    [pd.to_numeric(col, errors='coerce')]. *)
Variable file : Type.
Variable read_csv : file -> result DataFrame.
Variable to_datetime : Series -> Series.
Variable to_numeric : Series -> Series.

(** Line 34: the first value of the marker column that is not missing,
    or the empty string. *)
Definition first_sample (col : Series) : cell :=
  match dropna_series col with
  | c :: _ => c
  | [] => CStr ""
  end.

(** Lines 32-36: shift detection. *)
Definition is_shifted (df_raw : DataFrame) : bool :=
  match column "GOTOES_CSV" df_raw with
  | Some col =>
      match first_sample col with
      | CStr sample => Str.contains "202" sample || Str.contains "T" sample
      | _ => false
      end
  | None => false
  end.

(** Lines 41-44: the shifted assignment of columns. *)
Definition remap_shifted (df_raw : DataFrame) : M DataFrame :=
  let df_clean := empty_frame in
  c <- getitem "GOTOES_CSV" df_raw ;;
  let df_clean := set_column "timestamp" (to_datetime c) df_clean in
  c <- getitem "altitude" df_raw ;;
  let df_clean := set_column "heart_rate" (to_numeric c) df_clean in
  c <- getitem "heart_rate" df_raw ;;
  let df_clean := set_column "cadence" (to_numeric c) df_clean in
  c <- getitem "speed" df_raw ;;
  let df_clean := set_column "power" (to_numeric c) df_clean in
  ret df_clean.

(** Line 47. *)
Definition col_map : list (string * string) :=
  [("timestamp", "timestamp"); ("heart_rate", "heart_rate");
   ("cadence", "cadence"); ("power", "power")].

(** Lines 49-54: the standard assignment of columns. *)
Definition map_standard (df_raw : DataFrame) : M DataFrame :=
  let df_clean := empty_frame in
  if has_column "power" df_raw then
    let df_clean :=
      fold_left (fun df_clean '(k, v) =>
                   match column v df_raw with
                   | Some c => set_column k c df_clean
                   | None => df_clean
                   end) col_map df_clean in
    match column "timestamp" df_clean with
    | Some c => ret (set_column "timestamp" (to_datetime c) df_clean)
    | None => ret df_clean
    end
  else ret df_clean.

(** Lines 31-57: what the [try] does with the table read. *)
Definition parse_table (df_raw : DataFrame) : M DataFrame :=
  df_clean <- (if is_shifted df_raw then remap_shifted df_raw
               else map_standard df_raw) ;;
  dropna ["timestamp"; "power"] df_clean.

(** Lines 29-57: the body of the [try]. *)
Definition parse_body (uploaded_file : file) : M DataFrame :=
  df_raw <- lift (read_csv uploaded_file) ;;
  parse_table df_raw.

(** Lines 27-61. *)
Definition parse_file (uploaded_file : file) : M DataFrame :=
  try_except (parse_body uploaded_file)
    (fun e => st_error e ;;; ret empty_frame).

End ParseFile.

(** ** [calculate_metrics] (lines 63-99) *)

Local Open Scope float_scope.

(** One row of the normalised table.  [calculate_metrics] reads the three
    numeric columns as float64; a missing value is NaN.  The timestamp is in
    nanoseconds. *)
Record RideSample : Type := mkSample {
  timestamp : Z;
  heart_rate : float;
  cadence : float;
  power : float
}.

(** The dictionary [calculate_metrics] returns. *)
Record RideMetrics : Type := mkMetrics {
  duration : float;
  avg_pwr : float;
  norm_pwr : float;
  avg_hr : float;
  avg_cad : float;
  ef : float;
  decoupling : float
}.

(** [float(n)] for a count (exact below 2^53). *)
Definition float_of_nat (n : nat) : float :=
  PrimFloat.of_uint63 (Uint63.of_Z (Z.of_nat n)).

(** The sum of a float64 array, added from left to right.  (numpy adds
    arrays of 8 values and more in blocks; the order matters only when an
    addition rounds.) *)
Definition fsum (xs : list float) : float :=
  fold_left PrimFloat.add xs 0.

(** [Series.mean()] with its default [skipna=True], as pandas computes it:
    the missing values count as 0 in the sum and are left out of the
    count; the mean of no value at all is NaN. *)
Definition mean (xs : list float) : float :=
  let count := List.length (filter (fun x => negb (PrimFloat.is_nan x)) xs) in
  match count with
  | O => PrimFloat.nan
  | _ =>
      fsum (map (fun x => if PrimFloat.is_nan x then 0 else x) xs)
      / float_of_nat count
  end.

(** Line 65: [df[df['power'] > 10]]. *)
Definition active_rows (df : list RideSample) : list RideSample :=
  filter (fun s => 10 <? power s) df.

Definition calculate_metrics (df : list RideSample) : option RideMetrics :=
  let active := active_rows df in
  match active with
  | [] => None
  | _ =>
      let duration_min := float_of_nat (List.length df) / 60 in
      let avg_pwr := mean (map power active) in
      let norm_pwr := PrimFloat.sqrt (mean (map (fun s => power s * power s) active)) in
      let avg_hr := mean (map heart_rate active) in
      let avg_cad := mean (map cadence active) in
      let ef := if 0 <? avg_hr then avg_pwr / avg_hr else 0 in
      let mid := Nat.div (List.length active) 2 in
      let h1 := firstn mid active in
      let h2 := skipn mid active in
      let decoupling :=
        if (0 <? List.length h1)%nat && (0 <? List.length h2)%nat then
          let ef1 := mean (map power h1) / mean (map heart_rate h1) in
          let ef2 := mean (map power h2) / mean (map heart_rate h2) in
          (ef1 - ef2) / ef1 * 100
        else 0 in
      Some (mkMetrics duration_min avg_pwr norm_pwr avg_hr avg_cad ef decoupling)
  end.

(** ** [generate_coach_feedback] (lines 101-128) *)

(** The nine messages, by the headline each prints in bold.  [DriftAlert]
    carries the decoupling value its text shows. *)
Inductive message : Type :=
| RecoveryRide                      (* line 106, "Recovery Ride" *)
| SweetSpotZ2                       (* line 108, "Sweet Spot Z2" *)
| HighZ2                            (* line 110, "High Z2" *)
| IntensityAlert                    (* line 112, "Intensity Alert" *)
| EfficiencyExcellent               (* line 116, "Efficiency: Excellent!" *)
| EfficiencyGood                    (* line 118, "Efficiency: Good." *)
| DriftAlert (decoupling : float)   (* line 120, "Drift Alert" *)
| GrindWarning                      (* line 124, "Grind Warning" *)
| SpinToWin.                        (* line 126, "Spin to Win" *)

(** The rule a message belongs to. *)
Inductive category : Type := PowerCheck | DecouplingCheck | CadenceCheck.

Definition category_of (m : message) : category :=
  match m with
  | RecoveryRide | SweetSpotZ2 | HighZ2 | IntensityAlert => PowerCheck
  | EfficiencyExcellent | EfficiencyGood | DriftAlert _ => DecouplingCheck
  | GrindWarning | SpinToWin => CadenceCheck
  end.

Definition category_eqb (a b : category) : bool :=
  match a, b with
  | PowerCheck, PowerCheck | DecouplingCheck, DecouplingCheck
  | CadenceCheck, CadenceCheck => true
  | _, _ => false
  end.

(** The messages of one rule in a feedback list. *)
Definition messages_of (c : category) (feedback : list message) : list message :=
  filter (fun m => category_eqb (category_of m) c) feedback.

Definition generate_coach_feedback (metrics : RideMetrics) : list message :=
  let feedback := [] in
  (* 1. Power Check *)
  let feedback :=
    if avg_pwr metrics <? 115 then feedback ++ [RecoveryRide]
    else if (125 <=? avg_pwr metrics) && (avg_pwr metrics <=? 140)
         then feedback ++ [SweetSpotZ2]
    else if (140 <? avg_pwr metrics) && (avg_pwr metrics <=? 155)
         then feedback ++ [HighZ2]
    else if 160 <? avg_pwr metrics then feedback ++ [IntensityAlert]
    else feedback in
  (* 2. Decoupling Check *)
  let feedback :=
    if decoupling metrics <? 3 then feedback ++ [EfficiencyExcellent]
    else if decoupling metrics <? 5 then feedback ++ [EfficiencyGood]
    else feedback ++ [DriftAlert (decoupling metrics)] in
  (* 3. Cadence Check *)
  let feedback :=
    if avg_cad metrics <? 85 then feedback ++ [GrindWarning]
    else if 90 <? avg_cad metrics then feedback ++ [SpinToWin]
    else feedback in
  feedback.

(** ** Main app interface (lines 132-179)

    The part of the script that shows a parsed table [df], from line 137
    on, for a table with the four numeric columns.  The page is the list
    of the widgets in the order of the calls; a metric tile carries the
    number its text is formatted from and a chart the series it draws. *)

Inductive widget : Type :=
| StColumns (n : nat)                                   (* line 142 *)
| StMetric (label : string) (value : float)             (* lines 143-146 *)
| StSubheader (title : string)                          (* lines 149, 155 *)
| StMarkdown (item : message)                           (* line 152 *)
| PowerHrChart (x : list Z) (watts bpm : list float)    (* lines 161-171 *)
| CadenceHistogram (x : list float) (target : Z)        (* lines 174-176 *)
| StWarning (text : string).                            (* line 179 *)

(** The script runs to its end, or stops at line 143 on the [TypeError] of
    [m['avg_pwr']] with [m] being [None]. *)
Inductive outcome : Type :=
| Shown (page : list widget)
| TypeError (page : list widget).

(** The entries of a list at the positions [skip], [skip + step], ... *)
Fixpoint every {A} (step skip : nat) (l : list A) : list A :=
  match l with
  | [] => []
  | x :: l' =>
      match skip with
      | O => x :: every step (step - 1) l'
      | S k => every step k l'
      end
  end.

(** [df.iloc[::step, :]]. *)
Definition iloc_step {A} (step : nat) (df : list A) : list A :=
  every step 0 df.

Definition main_interface (df : list RideSample) : outcome :=
  match df with
  | [] =>
      Shown [StWarning
               "Could not read data from file. Ensure it is a valid GOTOES or Intervals CSV."]
  | _ =>
      (* Calculate *)
      let m := calculate_metrics df in
      (* Top Level Stats *)
      let page := [StColumns 4] in
      match m with
      | None => TypeError page
      | Some m =>
          let page := page ++ [StMetric "Avg Power" (avg_pwr m);
                               StMetric "Avg HR" (avg_hr m);
                               StMetric "Decoupling" (decoupling m);
                               StMetric "Efficiency (EF)" (ef m)] in
          (* Coach Feedback *)
          let page := page ++ [StSubheader "Coach's Verdict"] in
          let feedback := generate_coach_feedback m in
          let page := page ++ map StMarkdown feedback in
          (* Deep Dive Charts *)
          let page := page ++ [StSubheader "Ride Deep Dive"] in
          let chart_df := iloc_step 10 df in
          let page := page ++ [PowerHrChart (map timestamp chart_df)
                                            (map power chart_df)
                                            (map heart_rate chart_df)] in
          let page := page ++ [CadenceHistogram
                                 (map cadence (filter (fun s => 40 <? cadence s) df))
                                 TARGET_CADENCE] in
          Shown page
      end
  end.

(** The page of a table with metrics [m], part by part. *)
Definition ride_page (df : list RideSample) (m : RideMetrics) : list widget :=
  [StColumns 4; StMetric "Avg Power" (avg_pwr m); StMetric "Avg HR" (avg_hr m);
   StMetric "Decoupling" (decoupling m); StMetric "Efficiency (EF)" (ef m);
   StSubheader "Coach's Verdict"]
  ++ map StMarkdown (generate_coach_feedback m)
  ++ [StSubheader "Ride Deep Dive";
      PowerHrChart (map timestamp (iloc_step 10 df)) (map power (iloc_step 10 df))
                   (map heart_rate (iloc_step 10 df));
      CadenceHistogram (map cadence (filter (fun s => 40 <? cadence s) df))
                       TARGET_CADENCE].

(** The coach messages on a page. *)
Definition markdown_items (page : list widget) : list message :=
  flat_map (fun w => match w with StMarkdown item => [item] | _ => [] end) page.

(** ** Notions the properties are stated with *)

(** The mean as the specification writes it: the sum over the count. *)
Definition arith_mean (xs : list float) : float :=
  fsum xs / float_of_nat (List.length xs).


(** Power [p] and heart rate [h] in every row. *)
Definition Steady (p h : float) (df : list RideSample) : Prop :=
  Forall (fun s => power s = p /\ heart_rate s = h) df.

(** A float that is neither zero, infinite nor NaN. *)
Definition finite_nonzero (x : float) : bool :=
  match Prim2SF x with
  | S754_finite _ _ _ => true
  | _ => false
  end.

(** A computation that leaves the page as it found it. *)
Definition silent {A} (c : M A) : Prop :=
  forall ui, snd (c ui) = ui.

(** The four columns of the normalised table. *)
Definition clean_columns : list string :=
  ["timestamp"; "heart_rate"; "cadence"; "power"].

(** No value of the column is missing. *)
Definition complete (col : Series) : Prop :=
  Forall (fun c => isna c = false) col.

Local Open Scope Z_scope.

(** A shift record without dropped bits. *)
Definition rec0 (z : Z) : shr_record := {| shr_m := z; shr_r := false; shr_s := false |}.

(** The float that holds the whole number [z]. *)
Definition whole (z : Z) : spec_float := binary_normalize prec emax z 0 false.

(** The canonical float of a whole number below 2^53. *)
Definition canon (c : Z) : spec_float :=
  S754_finite false (Z.to_pos (c * 2 ^ (52 - Z.log2 c))) (Z.log2 c - 52).

Local Close Scope Z_scope.

(** ** Concrete inputs *)

Module Tables.

(** A standard export whose [power] column holds a text that is not a
    number, so that pandas read the whole column as text. *)
Definition text_power_table : DataFrame :=
  [("timestamp", [CStr "2024-01-01 10:00:00"; CStr "2024-01-01 10:00:01"]);
   ("power", [CStr "150"; CStr "abc"])].

(** The same values in the shifted layout, the power under [speed]. *)
Definition shifted_table : DataFrame :=
  [("GOTOES_CSV", [CStr "2024-01-01T10:00:00"; CStr "2024-01-01T10:00:01"]);
   ("altitude", [CInt 140; CInt 141]);
   ("heart_rate", [CInt 90; CInt 91]);
   ("speed", [CStr "150"; CStr "abc"])].

(** A marker column that holds numbers. *)
Definition numeric_marker_table : DataFrame :=
  [("GOTOES_CSV", [CInt 2020; CInt 2021]);
   ("timestamp", [CStr "2024-01-01 10:00:00"; CStr "2024-01-01 10:00:01"]);
   ("power", [CInt 150; CInt 151])].

(** Stand-ins for the pandas routines on the tables above: every text with
    a "-" is a date, and "150" is the only text that is a number. *)
Definition demo_to_datetime (col : Series) : Series :=
  map (fun c => match c with
                | CStr s => if Str.contains "-" s then CTime 0 else CNaT
                | CTime t => CTime t
                | _ => CNaT
                end) col.

Definition demo_to_numeric (col : Series) : Series :=
  map (fun c => match c with
                | CStr s => if String.eqb s "150" then CInt 150 else NaN
                | CTime _ | CNaT => NaN
                | c => c
                end) col.

(** A file is its name here; the file without a name cannot be read. *)
Definition demo_read_csv (f : string) : result DataFrame :=
  if String.eqb f "" then Raise (ReadError "No columns to parse from file")
  else Ok shifted_table.

(** 120 rows: power 150 throughout, heart rate 140 in the first 60 rows
    and 150 in the last 60; timestamps and cadences are whatever they
    are. *)
Definition two_minute_ride (ts : nat -> Z) (cad : nat -> float) : list RideSample :=
  map (fun i => mkSample (ts i) (if (i <? 60)%nat then 140 else 150) (cad i) 150)
      (seq 0 120).

(** Five samples at 100.1 W and 140 bpm: a steady ride whose second half,
    of three samples, has a mean power one unit in the last place below
    the mean of the first half, of two. *)
Definition ride_100_1 : list RideSample :=
  repeat (mkSample 0 140 90 (1001 / 10)) 5.

(** Seven samples at 150 W and 140 bpm. *)
Definition ride_150 : list RideSample :=
  repeat (mkSample 0 140 90 150) 7.

(** 21 samples, one a second, at 150 W, 140 bpm and 90 rpm. *)
Definition ride_21 : list RideSample :=
  map (fun i => mkSample (Z.of_nat i) 140 90 150) (seq 0 21).

End Tables.

(** * Properties *)

(** ** The substring test *)

Module StrFacts.
Import Str.



End StrFacts.

(** ** Layout detection and the boundary of [parse_file] *)

Section ParseFacts.

Variable file : Type.
Variable read_csv : file -> result DataFrame.
Variable to_datetime : Series -> Series.
Variable to_numeric : Series -> Series.




End ParseFacts.

(** ** Rows of a table and [dropna] *)

Module FrameFacts.

Lemma field_row_at (k : string) (i : nat) (df : DataFrame) :
  field k (row_at i df) = option_map (fun col => nth i col NaN) (column k df).
Proof.
  induction df as [|[k' col] df IH]; simpl; [reflexivity|].
  now destruct (String.eqb k k').
Qed.

Lemma has_column_column (k : string) (df : DataFrame) :
  has_column k df = true <-> exists col, column k df = Some col.
Proof.
  unfold has_column, columns. induction df as [|[k' col] df IH]; simpl.
  - split; [discriminate | now intros [? ?]].
  - destruct (String.eqb k k'); simpl; [|exact IH].
    split; [now exists col | reflexivity].
Qed.

Lemma well_formed_column (n : nat) (k : string) (df : DataFrame) (col : Series) :
  well_formed n df -> column k df = Some col -> List.length col = n.
Proof.
  unfold well_formed. induction df as [|[k' col'] df IH]; simpl; [discriminate|].
  intros Hwf. apply Forall_cons_iff in Hwf as [Hc Hwf']. simpl in Hc.
  destruct (String.eqb k k'); [now intros [= <-] | now apply IH].
Qed.

Lemma well_formed_nrows (n : nat) (df : DataFrame) :
  well_formed n df -> df <> [] -> nrows df = n.
Proof.
  destruct df as [|[k col] df]; [congruence|].
  intros Hwf _. now apply Forall_cons_iff in Hwf as [Hc _].
Qed.

Lemma well_formed_tails (n : nat) (df : DataFrame) :
  well_formed (S n) df -> well_formed n (tails df).
Proof.
  unfold well_formed, tails. intros Hwf. apply Forall_map.
  eapply Forall_impl; [|exact Hwf].
  intros [k col]; simpl. destruct col; simpl; [discriminate | now intros [= ->]].
Qed.

Lemma column_tails (k : string) (df : DataFrame) :
  column k (tails df) = option_map (@tl cell) (column k df).
Proof.
  induction df as [|[k' col] df IH]; simpl; [reflexivity|].
  now destruct (String.eqb k k').
Qed.

Lemma has_column_tails (k : string) (df : DataFrame) :
  has_column k (tails df) = has_column k df.
Proof.
  unfold has_column, columns, tails. rewrite map_map. f_equal.
  apply map_ext. now intros [? ?].
Qed.

Lemma row_at_tails (i : nat) (n : nat) (df : DataFrame) :
  well_formed (S n) df -> row_at i (tails df) = row_at (S i) df.
Proof.
  unfold well_formed, row_at, tails. intros Hwf. rewrite map_map.
  apply map_ext_in. intros [k col] Hin.
  rewrite Forall_forall in Hwf. specialize (Hwf _ Hin). simpl in Hwf.
  destruct col; [discriminate | reflexivity].
Qed.

(** The rows of a table are its first row and the rows of the rest. *)
Lemma rows_cons (n : nat) (df : DataFrame) :
  well_formed (S n) df -> df <> [] ->
  rows df = row_at 0 df :: rows (tails df).
Proof.
  intros Hwf Hne. unfold rows.
  rewrite (well_formed_nrows (S n) df Hwf Hne).
  rewrite (well_formed_nrows n (tails df) (well_formed_tails n df Hwf)).
  2:{ destruct df; [congruence | discriminate]. }
  simpl. f_equal. rewrite <- seq_shift, map_map.
  apply map_ext. intros i. symmetry. now apply row_at_tails with n.
Qed.

Lemma rows_no_row (df : DataFrame) : well_formed 0 df -> rows df = [].
Proof.
  intros Hwf. unfold rows. destruct df as [|[k col] df]; [reflexivity|].
  apply Forall_cons_iff in Hwf as [Hc _]. simpl in *. now rewrite Hc.
Qed.

Lemma columns_of_tails (keys : list string) (df : DataFrame) :
  columns_of keys (tails df) = map (@tl cell) (columns_of keys df).
Proof.
  unfold columns_of. induction keys as [|k keys IH]; simpl; [reflexivity|].
  rewrite column_tails, map_app, IH.
  now destruct (column k df).
Qed.

Lemma columns_of_well_formed (n : nat) (keys : list string) (df : DataFrame) :
  well_formed n df -> Forall (fun col => List.length col = n) (columns_of keys df).
Proof.
  intros Hwf. unfold columns_of. induction keys as [|k keys IH]; simpl; [constructor|].
  apply Forall_app. split; [|exact IH].
  destruct (column k df) as [col|] eqn:E; constructor; [|constructor].
  now apply well_formed_column with k df.
Qed.

Lemma notna_mask_length (n : nat) (cols : list Series) :
  Forall (fun col => List.length col = n) cols ->
  List.length (notna_mask n cols) = n.
Proof.
  induction 1 as [|col cols Hc _ IH]; simpl.
  - apply repeat_length.
  - rewrite length_map, length_combine, IH, Hc. apply Nat.min_id.
Qed.

Lemma notna_mask_cons (n : nat) (cols : list Series) :
  Forall (fun col => List.length col = S n) cols ->
  notna_mask (S n) cols =
  forallb (fun col => negb (isna (hd NaN col))) cols
  :: notna_mask n (map (@tl cell) cols).
Proof.
  induction 1 as [|col cols Hc _ IH]; simpl; [reflexivity|].
  rewrite IH. destruct col as [|c col]; [discriminate|]. reflexivity.
Qed.

(** The first entry of the mask says whether the first row holds a value
    under every key. *)
Lemma first_row_present (keys : list string) (df : DataFrame) :
  forallb (fun k => has_column k df) keys = true ->
  forallb (fun col => negb (isna (hd NaN col))) (columns_of keys df) =
  forallb (fun k => present k (row_at 0 df)) keys.
Proof.
  unfold columns_of. induction keys as [|k keys IH]; cbn [flat_map forallb]; [reflexivity|].
  intros H. apply andb_true_iff in H as [Hk Hks].
  apply has_column_column in Hk as [col Hcol].
  rewrite forallb_app. f_equal; [|exact (IH Hks)].
  unfold present. rewrite field_row_at, Hcol. cbn [forallb option_map].
  rewrite andb_true_r. now destruct col.
Qed.

Lemma sel_false (mask : list bool) (n : nat) (df : DataFrame) :
  well_formed (S n) df -> sel (false :: mask) df = sel mask (tails df).
Proof.
  unfold well_formed, sel, tails. intros Hwf. rewrite map_map.
  apply map_ext_in. intros [k col] Hin.
  rewrite Forall_forall in Hwf. specialize (Hwf _ Hin). simpl in Hwf.
  destruct col; [discriminate | reflexivity].
Qed.

Lemma tails_sel_true (mask : list bool) (n : nat) (df : DataFrame) :
  well_formed (S n) df -> tails (sel (true :: mask) df) = sel mask (tails df).
Proof.
  unfold well_formed, sel, tails. intros Hwf. rewrite !map_map.
  apply map_ext_in. intros [k col] Hin.
  rewrite Forall_forall in Hwf. specialize (Hwf _ Hin). simpl in Hwf.
  destruct col; [discriminate | reflexivity].
Qed.

Lemma row_at_sel_true (mask : list bool) (n : nat) (df : DataFrame) :
  well_formed (S n) df -> row_at 0 (sel (true :: mask) df) = row_at 0 df.
Proof.
  unfold well_formed, sel, row_at. intros Hwf. rewrite map_map.
  apply map_ext_in. intros [k col] Hin.
  rewrite Forall_forall in Hwf. specialize (Hwf _ Hin). simpl in Hwf.
  destruct col; [discriminate | reflexivity].
Qed.

Lemma select_length (mask : list bool) (col : Series) :
  List.length col = List.length mask ->
  List.length (select mask col) = List.length (filter (fun b => b) mask).
Proof.
  revert col. induction mask as [|b mask IH]; intros [|c col]; simpl; try discriminate.
  - reflexivity.
  - intros [= H]. destruct b; simpl; now rewrite IH.
Qed.

Lemma well_formed_sel (mask : list bool) (df : DataFrame) :
  well_formed (List.length mask) df ->
  well_formed (List.length (filter (fun b => b) mask)) (sel mask df).
Proof.
  unfold well_formed, sel. intros Hwf. apply Forall_map.
  eapply Forall_impl; [|exact Hwf].
  intros [k col]; simpl. apply select_length.
Qed.

(** Selecting rows by a mask keeps, in their order, the rows the mask
    marks. *)
Lemma rows_sel (mask : list bool) (df : DataFrame) :
  well_formed (List.length mask) df ->
  rows (sel mask df) = map snd (filter fst (combine mask (rows df))).
Proof.
  destruct df as [|kc df0]; [now destruct mask|].
  set (df := kc :: df0). assert (Hne : df <> []) by discriminate.
  clearbody df. clear kc df0. revert df Hne.
  induction mask as [|b mask IH]; intros df Hne Hwf; simpl in Hwf.
  - simpl. apply rows_no_row. now apply (well_formed_sel [] df).
  - assert (Hne' : tails df <> []) by (destruct df; [congruence | discriminate]).
    rewrite (rows_cons _ df Hwf Hne). destruct b; simpl.
    + rewrite (rows_cons (List.length (filter (fun b => b) mask)) (sel (true :: mask) df)).
      * rewrite (row_at_sel_true _ _ _ Hwf), (tails_sel_true _ _ _ Hwf).
        f_equal. apply IH; [exact Hne' | now apply well_formed_tails].
      * now apply (well_formed_sel (true :: mask) df).
      * destruct df; [congruence | discriminate].
    + rewrite (sel_false _ _ _ Hwf).
      apply IH; [exact Hne' | now apply well_formed_tails].
Qed.

(** The mask [dropna] computes marks the rows that hold a value under
    every key. *)
Lemma notna_mask_rows (keys : list string) (n : nat) (df : DataFrame) :
  well_formed n df -> df <> [] ->
  forallb (fun k => has_column k df) keys = true ->
  notna_mask n (columns_of keys df) =
  map (fun r => forallb (fun k => present k r) keys) (rows df).
Proof.
  revert df. induction n as [|n IH]; intros df Hwf Hne Hkeys.
  - rewrite (rows_no_row df Hwf). simpl.
    pose proof (notna_mask_length 0 _ (columns_of_well_formed 0 keys df Hwf)) as H.
    now destruct (notna_mask 0 (columns_of keys df)).
  - rewrite (rows_cons n df Hwf Hne). simpl.
    rewrite notna_mask_cons by now apply columns_of_well_formed.
    rewrite first_row_present by exact Hkeys. f_equal.
    rewrite <- columns_of_tails. apply IH.
    + now apply well_formed_tails.
    + destruct df; [congruence | discriminate].
    + rewrite <- Hkeys. clear. induction keys as [|k keys IHk]; simpl; [reflexivity|].
      now rewrite has_column_tails, IHk.
Qed.

Lemma filter_combine_map {A} (p : A -> bool) (l : list A) :
  map snd (filter fst (combine (map p l) l)) = filter p l.
Proof.
  induction l as [|a l IH]; simpl; [reflexivity|].
  destruct (p a); simpl; now rewrite IH.
Qed.

(** [dropna] on a table that has the columns of [keys]: no exception, and
    the result holds, in their order, the rows with a value under every
    key. *)
Lemma dropna_rows (keys : list string) (n : nat) (df : DataFrame) (ui : list ui_event) :
  well_formed n df ->
  forallb (fun k => has_column k df) keys = true ->
  exists df',
    dropna keys df ui = (Ok df', ui) /\
    columns df' = columns df /\
    rows df' = filter (fun r => forallb (fun k => present k r) keys) (rows df).
Proof.
  intros Hwf Hkeys. unfold dropna.
  assert (Hmiss : filter (fun k => negb (has_column k df)) keys = []).
  { clear Hwf. induction keys as [|k keys IH]; simpl in *; [reflexivity|].
    apply andb_true_iff in Hkeys as [-> Hks]. simpl. now apply IH. }
  rewrite Hmiss.
  eexists. split; [reflexivity|]. split.
  { unfold sel, columns. rewrite map_map. apply map_ext. now intros [? ?]. }
  destruct df as [|kc df0]; [reflexivity|].
  assert (Hne : kc :: df0 <> []) by discriminate.
  rewrite (well_formed_nrows n _ Hwf Hne).
  rewrite rows_sel.
  - rewrite (notna_mask_rows keys n _ Hwf Hne Hkeys). apply filter_combine_map.
  - rewrite notna_mask_length; [exact Hwf | now apply columns_of_well_formed].
Qed.

End FrameFacts.

(** ** The standard layout and the boundary of [parse_file] *)

Section NormaliseFacts.

Variable file : Type.
Variable read_csv : file -> result DataFrame.
Variable to_datetime : Series -> Series.
Variable to_numeric : Series -> Series.

(** On the standard path a table with a [timestamp] and a [power] column
    is normalised without an exception: the timestamps are parsed, the
    other columns are taken as they were read, and the result holds, in
    their original order, exactly the rows with a timestamp and a power
    value that are not missing. *)
Lemma standard_layout_rows (df_raw : DataFrame) (n : nat) (ts pw : Series)
    (ui : list ui_event) :
  well_formed n df_raw ->
  is_shifted df_raw = false ->
  column "timestamp" df_raw = Some ts ->
  column "power" df_raw = Some pw ->
  List.length (to_datetime ts) = List.length ts ->
  exists df_norm df_clean,
    map_standard to_datetime df_raw ui = (Ok df_norm, ui) /\
    column "timestamp" df_norm = Some (to_datetime ts) /\
    column "power" df_norm = Some pw /\
    column "heart_rate" df_norm = column "heart_rate" df_raw /\
    column "cadence" df_norm = column "cadence" df_raw /\
    parse_table to_datetime to_numeric df_raw ui = (Ok df_clean, ui) /\
    rows df_clean =
    filter (fun r => present "timestamp" r && present "power" r) (rows df_norm).
Proof.
  intros Hwf Hshift Hts Hpw Hlen.
  assert (Hhas : has_column "power" df_raw = true)
    by (apply FrameFacts.has_column_column; now exists pw).
  assert (Lts : List.length (to_datetime ts) = n)
    by (rewrite Hlen; now apply FrameFacts.well_formed_column with "timestamp" df_raw).
  assert (Lpw : List.length pw = n)
    by now apply FrameFacts.well_formed_column with "power" df_raw.
  assert (Hnorm : exists df_norm,
            map_standard to_datetime df_raw ui = (Ok df_norm, ui) /\
            column "timestamp" df_norm = Some (to_datetime ts) /\
            column "power" df_norm = Some pw /\
            column "heart_rate" df_norm = column "heart_rate" df_raw /\
            column "cadence" df_norm = column "cadence" df_raw /\
            well_formed n df_norm).
  { unfold map_standard, col_map. rewrite Hhas. cbn [fold_left]. rewrite Hts, Hpw.
    destruct (column "heart_rate" df_raw) as [hr|] eqn:Hhr;
      destruct (column "cadence" df_raw) as [cad|] eqn:Hcad;
      cbn; eexists; (split; [reflexivity|]); repeat (split; [reflexivity|]);
      repeat constructor; simpl; try assumption.
    all: try (now apply FrameFacts.well_formed_column with "heart_rate" df_raw).
    all: try (now apply FrameFacts.well_formed_column with "cadence" df_raw). }
  destruct Hnorm as (df_norm & Hrun & Cts & Cpw & Chr & Ccad & Hwfn).
  destruct (FrameFacts.dropna_rows ["timestamp"; "power"] n df_norm ui Hwfn)
    as (df_clean & Hdrop & _ & Hrows).
  { simpl. rewrite andb_true_r. apply andb_true_iff.
    split; apply FrameFacts.has_column_column; eauto. }
  exists df_norm, df_clean. repeat (split; [assumption|]). split.
  - unfold parse_table, bind. now rewrite Hshift, Hrun.
  - rewrite Hrows. apply filter_ext. intros r. simpl. now rewrite andb_true_r.
Qed.

(** [parse_file] returns what its body returns, and turns an exception of
    the body into an error on the page and an empty table. *)
Lemma parse_file_cases (f : file) (ui : list ui_event) :
  match parse_body file read_csv to_datetime to_numeric f ui with
  | (Ok df, ui') =>
      parse_file file read_csv to_datetime to_numeric f ui = (Ok df, ui')
  | (Raise e, ui') =>
      parse_file file read_csv to_datetime to_numeric f ui =
      (Ok empty_frame, ui' ++ [StError e])
  end.
Proof.
  unfold parse_file, try_except.
  destruct (parse_body file read_csv to_datetime to_numeric f ui) as [[df|e] ui'];
    reflexivity.
Qed.

Lemma parse_body_read_error (f : file) (e : exn) (ui : list ui_event) :
  read_csv f = Raise e ->
  parse_body file read_csv to_datetime to_numeric f ui = (Raise e, ui).
Proof. intros H. unfold parse_body, bind, lift. now rewrite H. Qed.

(** C9.  For every input file, [parse_file] returns a table and never an
    exception: when reading the file fails, or a later step of the parse
    raises, the error is put on the page ([st.error]) and the empty table
    is returned; otherwise the table the parse produced is returned. *)
Theorem parse_file_never_raises (f : file) (ui : list ui_event) :
  (exists df ui', parse_file file read_csv to_datetime to_numeric f ui = (Ok df, ui')) /\
  (forall e, read_csv f = Raise e ->
     parse_file file read_csv to_datetime to_numeric f ui =
     (Ok empty_frame, ui ++ [StError e])) /\
  (forall e ui', parse_body file read_csv to_datetime to_numeric f ui = (Raise e, ui') ->
     parse_file file read_csv to_datetime to_numeric f ui =
     (Ok empty_frame, ui' ++ [StError e])) /\
  (forall df ui', parse_body file read_csv to_datetime to_numeric f ui = (Ok df, ui') ->
     parse_file file read_csv to_datetime to_numeric f ui = (Ok df, ui')).
Proof.
  pose proof (parse_file_cases f ui) as H.
  split; [|split; [|split]].
  - destruct (parse_body file read_csv to_datetime to_numeric f ui) as [[df|e] ui'];
      eauto.
  - intros e He. now rewrite (parse_body_read_error f e ui He) in H.
  - intros e ui' He. now rewrite He in H.
  - intros df ui' He. now rewrite He in H.
Qed.

End NormaliseFacts.

(** ** Facts of binary64 arithmetic *)

Module FloatFacts.

(** The comparison of two floats, read the other way round. *)
Lemma SFcompare_antisym (x y : spec_float) :
  SFcompare y x = option_map CompOpp (SFcompare x y).
Proof.
  destruct x as [sx|sx| |sx mx ex], y as [sy|sy| |sy my ey]; simpl;
    try destruct sx; try destruct sy; try reflexivity.
  all: rewrite (Z.compare_antisym ex ey);
    change (Pos.compare_cont Eq my mx) with (Pos.compare my mx);
    change (Pos.compare_cont Eq mx my) with (Pos.compare mx my);
    rewrite (Pos.compare_antisym mx my);
    destruct (ex ?= ey)%Z; simpl; try reflexivity;
    now destruct (Pos.compare mx my).
Qed.

(** [x <= y] excludes [y < x]. *)
Lemma leb_not_ltb (x y : float) : (x <=? y) = true -> (y <? x) = false.
Proof.
  rewrite FloatAxioms.leb_spec, FloatAxioms.ltb_spec. unfold SFleb, SFltb.
  rewrite (SFcompare_antisym (Prim2SF x) (Prim2SF y)).
  destruct (SFcompare (Prim2SF x) (Prim2SF y)) as [[ | | ]|]; simpl; congruence.
Qed.

Lemma SFleb_trans (x y z : spec_float) :
  SFleb x y = true -> SFleb y z = true -> SFleb x z = true.
Proof.
  unfold SFleb.
  destruct x as [sx|sx| |sx mx ex], y as [sy|sy| |sy my ey], z as [sz|sz| |sz mz ez];
    simpl; try destruct sx; try destruct sy; try destruct sz; simpl; try congruence;
    change (Pos.compare_cont Eq) with Pos.compare;
    destruct (Z.compare_spec ex ey), (Z.compare_spec ey ez), (Z.compare_spec ex ez);
    try congruence; try lia; subst;
    destruct (Pos.compare_spec mx my), (Pos.compare_spec my mz), (Pos.compare_spec mx mz);
    simpl; try congruence; try lia.
Qed.

Lemma leb_trans (x y z : float) :
  (x <=? y) = true -> (y <=? z) = true -> (x <=? z) = true.
Proof. rewrite !FloatAxioms.leb_spec. apply SFleb_trans. Qed.

(** [x < y] gives [x <= y]. *)
Lemma ltb_leb (x y : float) : (x <? y) = true -> (x <=? y) = true.
Proof.
  rewrite FloatAxioms.leb_spec, FloatAxioms.ltb_spec. unfold SFleb, SFltb.
  now destruct (SFcompare (Prim2SF x) (Prim2SF y)) as [[ | | ]|].
Qed.

(** A float is NaN exactly when its specification is. *)
Lemma Prim2SF_nan (x : float) : Prim2SF x = S754_nan <-> PrimFloat.is_nan x = true.
Proof.
  unfold Prim2SF. destruct (PrimFloat.is_nan x); [tauto|].
  split; [|discriminate].
  destruct (PrimFloat.is_zero x); [discriminate|].
  destruct (PrimFloat.is_infinity x); [discriminate|].
  destruct (Z.frexp x) as [r e].
  destruct (shr_fexp _ _ _ _ _) as [s e'].
  destruct (shr_m s); discriminate.
Qed.


Lemma SFsub_self (s : bool) (m : positive) (e : Z) :
  SF64sub (S754_finite s m e) (S754_finite s m e) = S754_zero false.
Proof.
  unfold SF64sub, SFsub.
  match goal with
  | |- binary_normalize _ _ ?t _ _ = _ => replace t with Z0
  end; [reflexivity | symmetry; apply Z.sub_diag].
Qed.

(** The decoupling formula on two equal efficiency factors. *)
Lemma residue_zero (x : float) :
  finite_nonzero x = true -> ((x - x) / x * 100 =? 0) = true.
Proof.
  unfold finite_nonzero. destruct (Prim2SF x) as [| | |s m e] eqn:Hx; try discriminate.
  intros _.
  rewrite FloatAxioms.eqb_spec, mul_spec, div_spec, sub_spec, Hx, SFsub_self.
  destruct s; reflexivity.
Qed.

End FloatFacts.

(** ** The metrics *)

Module MetricsFacts.


(** On values none of which is missing, [Series.mean] is the sum over the
    count. *)
Lemma mean_no_nan (xs : list float) :
  Forall (fun x => PrimFloat.is_nan x = false) xs -> xs <> [] ->
  mean xs = arith_mean xs.
Proof.
  intros Hall Hne. unfold mean, arith_mean.
  assert (Hf : filter (fun x => negb (PrimFloat.is_nan x)) xs = xs).
  { clear Hne. induction Hall as [|x xs Hx _ IH]; simpl; [reflexivity|].
    now rewrite Hx, IH. }
  assert (Hm : map (fun x => if PrimFloat.is_nan x then 0 else x) xs = xs).
  { clear Hne Hf. induction Hall as [|x xs Hx _ IH]; simpl; [reflexivity|].
    now rewrite Hx, IH. }
  rewrite Hf, Hm. destruct xs; [congruence | reflexivity].
Qed.


Lemma calculate_metrics_some (df : list RideSample) :
  active_rows df <> [] ->
  calculate_metrics df =
  let active := active_rows df in
  let mid := Nat.div (List.length active) 2 in
  let h1 := firstn mid active in
  let h2 := skipn mid active in
  let avg_hr := mean (map heart_rate active) in
  Some (mkMetrics
          (float_of_nat (List.length df) / 60)
          (mean (map power active))
          (PrimFloat.sqrt (mean (map (fun s => power s * power s) active)))
          avg_hr
          (mean (map cadence active))
          (if 0 <? avg_hr then mean (map power active) / avg_hr else 0)
          (if (0 <? List.length h1)%nat && (0 <? List.length h2)%nat
           then (mean (map power h1) / mean (map heart_rate h1)
                 - mean (map power h2) / mean (map heart_rate h2))
                / (mean (map power h1) / mean (map heart_rate h1)) * 100
           else 0)).
Proof.
  intros Hne. unfold calculate_metrics.
  destruct (active_rows df); [congruence | reflexivity].
Qed.


(** C3.  [calculate_metrics] returns [None] if and only if no sample is
    left after the filter [power > 10]; in particular on no sample at all,
    and on a series in which every power is at most 10. *)
Theorem calculate_metrics_none_iff_no_active_sample (df : list RideSample) :
  (calculate_metrics df = None <-> filter (fun s => 10 <? power s) df = []) /\
  calculate_metrics [] = None /\
  (Forall (fun s => (power s <=? 10) = true) df -> calculate_metrics df = None).
Proof.
  assert (Hiff : calculate_metrics df = None <-> filter (fun s => 10 <? power s) df = []).
  { fold (active_rows df). split.
    - intros H. destruct (active_rows df) eqn:E; [reflexivity|].
      rewrite calculate_metrics_some in H by congruence. discriminate.
    - intros H. unfold calculate_metrics. now rewrite H. }
  split; [exact Hiff|]. split; [reflexivity|].
  intros Hall. apply Hiff. clear Hiff.
  induction Hall as [|s df Hs _ IH]; simpl; [reflexivity|].
  now rewrite (FloatFacts.leb_not_ltb _ _ Hs).
Qed.


End MetricsFacts.

(** ** The worked example of the specification *)

Module Example.

Import Tables.

(** C6.  On 120 samples, the first 60 with power 150 and heart rate 140,
    the last 60 with power 150 and heart rate 150, [calculate_metrics]
    returns an average power of 150, a duration of 2.0 minutes and a
    decoupling of [(150/140 - 1) / (150/140) * 100], which lies within
    0.005 of 6.67. *)
Theorem two_minute_ride_metrics (ts : nat -> Z) (cad : nat -> float) :
  exists m,
    calculate_metrics (two_minute_ride ts cad) = Some m /\
    avg_pwr m = 150 /\
    duration m = 2 /\
    decoupling m = (150 / 140 - 1) / (150 / 140) * 100 /\
    ((6665 / 1000 <? decoupling m) && (decoupling m <? 6675 / 1000)) = true.
Proof.
  eexists. split; [apply MetricsFacts.calculate_metrics_some; discriminate|].
  cbv zeta. unfold avg_pwr, duration, decoupling.
  repeat split; vm_compute; reflexivity.
Qed.

End Example.

(** ** The coaching rules *)

Module CoachFacts.

Ltac split_rules m :=
  unfold generate_coach_feedback;
  destruct (avg_pwr m <? 115);
  [| destruct ((125 <=? avg_pwr m) && (avg_pwr m <=? 140));
     [| destruct ((140 <? avg_pwr m) && (avg_pwr m <=? 155));
        [| destruct (160 <? avg_pwr m)]]];
  (destruct (avg_cad m <? 85); [| destruct (90 <? avg_cad m)]).

(** C5.  The feedback contains the Excellent-efficiency message when the
    decoupling is below 3, the Good-efficiency message when it is at least
    3 and below 5, and the Drift-alert message when it is 5 or more: the
    boundary value 5 gives the Drift alert. *)
Theorem decoupling_message_by_threshold (m : RideMetrics) :
  ((decoupling m <? 3) = true ->
   In EfficiencyExcellent (generate_coach_feedback m)) /\
  ((3 <=? decoupling m) = true -> (decoupling m <? 5) = true ->
   In EfficiencyGood (generate_coach_feedback m)) /\
  ((5 <=? decoupling m) = true ->
   In (DriftAlert (decoupling m)) (generate_coach_feedback m)) /\
  (decoupling m = 5 ->
   In (DriftAlert 5) (generate_coach_feedback m) /\
   ~ In EfficiencyGood (generate_coach_feedback m)).
Proof.
  repeat split.
  - intros H. split_rules m; rewrite H; simpl; tauto.
  - intros H3 H5. apply FloatFacts.leb_not_ltb in H3.
    split_rules m; rewrite H3, H5; simpl; tauto.
  - intros H5.
    assert (H3 : (3 <=? decoupling m) = true)
      by (apply FloatFacts.leb_trans with 5; [reflexivity | exact H5]).
    apply FloatFacts.leb_not_ltb in H3, H5.
    split_rules m; rewrite H3, H5; simpl; tauto.
  - split_rules m; rewrite H; simpl; tauto.
  - split_rules m; rewrite H; simpl; intuition discriminate.
Qed.

(** C8.  For an average power of 130, a decoupling of 2 and an average
    cadence of 95 the feedback is the Sweet-spot Z2 message, the
    Excellent-efficiency message and the good-cadence message ("Spin to
    Win"), in that order and nothing else. *)
Theorem feedback_sweet_spot_example (dur np hr e : float) :
  generate_coach_feedback (mkMetrics dur 130 np hr 95 e 2) =
  [SweetSpotZ2; EfficiencyExcellent; SpinToWin].
Proof. reflexivity. Qed.

(** C10.  The feedback always holds exactly one decoupling message, at
    most one power message and at most one cadence message; so it is never
    empty and has between 1 and 3 messages. *)
Theorem feedback_one_decoupling_message (m : RideMetrics) :
  let feedback := generate_coach_feedback m in
  List.length (messages_of DecouplingCheck feedback) = 1%nat /\
  (List.length (messages_of PowerCheck feedback) <= 1)%nat /\
  (List.length (messages_of CadenceCheck feedback) <= 1)%nat /\
  feedback <> [] /\
  (1 <= List.length feedback <= 3)%nat.
Proof.
  cbv zeta. split_rules m;
    (destruct (decoupling m <? 3); [| destruct (decoupling m <? 5)]);
    simpl; repeat split; try lia; discriminate.
Qed.

End CoachFacts.

(** ** Whole numbers in binary64

    Sums and exact quotients of whole numbers below 2^53 are computed
    without rounding. *)

Module WholeNumbers.

Local Open Scope Z_scope.

Lemma digits2_log2 (m : positive) :
  Z.pos (digits2_pos m) = Z.log2 (Z.pos m) + 1.
Proof.
  induction m as [m IH|m IH|]; simpl digits2_pos.
  - change (Z.pos (Pos.succ (digits2_pos m))) with (Z.pos (BinPos.Pos.succ (digits2_pos m))).
    rewrite Pos2Z.inj_succ, IH.
    change (Z.pos m~1) with (2 * Z.pos m + 1). rewrite Z.log2_succ_double by lia. lia.
  - change (Z.pos (Pos.succ (digits2_pos m))) with (Z.pos (BinPos.Pos.succ (digits2_pos m))).
    rewrite Pos2Z.inj_succ, IH.
    change (Z.pos m~0) with (2 * Z.pos m). rewrite Z.log2_double by lia. lia.
  - reflexivity.
Qed.

Lemma iter_xO (m d : positive) :
  Z.pos (PosDef.Pos.iter xO m d) = Z.pos m * 2 ^ Z.pos d.
Proof.
  change (PosDef.Pos.iter xO m d) with (Pos.iter xO m d).
  revert m. induction d as [|d IH] using Pos.peano_ind; intros m.
  - simpl. lia.
  - rewrite Pos.iter_succ, Pos2Z.inj_succ, Z.pow_succ_r by lia.
    change (Z.pos (Pos.iter xO m d)~0) with (2 * Z.pos (Pos.iter xO m d)).
    rewrite IH. lia.
Qed.

Lemma shr_1_double (z : Z) : shr_1 (rec0 (2 * z)) = rec0 z.
Proof. destruct z; reflexivity. Qed.

Lemma pow2_xI (p : positive) : 2 ^ Z.pos p~1 = 2 * (2 ^ Z.pos p * 2 ^ Z.pos p).
Proof.
  replace (Z.pos p~1) with (1 + Z.pos p + Z.pos p) by lia.
  rewrite !Z.pow_add_r by lia. change (2 ^ 1) with 2. ring.
Qed.

Lemma pow2_xO (p : positive) : 2 ^ Z.pos p~0 = 2 ^ Z.pos p * 2 ^ Z.pos p.
Proof.
  replace (Z.pos p~0) with (Z.pos p + Z.pos p) by lia.
  now rewrite Z.pow_add_r by lia.
Qed.

Lemma iter_shr_exact (p : positive) (z : Z) :
  iter_pos shr_1 p (rec0 (z * 2 ^ Z.pos p)) = rec0 z.
Proof.
  revert z. induction p as [p IH|p IH|]; intros z; cbn [iter_pos].
  - rewrite pow2_xI.
    replace (z * (2 * (2 ^ Z.pos p * 2 ^ Z.pos p)))
      with (2 * (z * 2 ^ Z.pos p * 2 ^ Z.pos p)) by ring.
    now rewrite shr_1_double, !IH.
  - rewrite pow2_xO, Z.mul_assoc. now rewrite !IH.
  - change (2 ^ 1) with 2. rewrite Z.mul_comm. apply shr_1_double.
Qed.

Lemma fexp_small (d : Z) : -1021 <= d -> fexp prec emax d = d - 53.
Proof. unfold fexp, SpecFloat.emin, prec, emax. lia. Qed.

(** Rounding a mantissa whose dropped bits are all zero. *)
Lemma round_exact (c j n e : Z) (s : bool) :
  0 < c ->
  0 <= n <= j ->
  Z.log2 c + 1 + j = 53 + n ->
  -1074 <= e + n <= 971 ->
  binary_round_aux prec emax s (c * 2 ^ j) e loc_Exact =
  S754_finite s (Z.to_pos (c * 2 ^ (j - n))) (e + n).
Proof.
  intros Hc Hn Hd He.
  assert (Hpos : 0 < c * 2 ^ j) by (apply Z.mul_pos_pos; [lia | apply Z.pow_pos_nonneg; lia]).
  assert (Hpos' : 0 < c * 2 ^ (j - n)) by (apply Z.mul_pos_pos; [lia | apply Z.pow_pos_nonneg; lia]).
  assert (Hlog : Z.log2 (c * 2 ^ j) = Z.log2 c + j)
    by (rewrite Z.log2_mul_pow2; lia).
  assert (Hlog' : Z.log2 (c * 2 ^ (j - n)) = Z.log2 c + (j - n))
    by (rewrite Z.log2_mul_pow2; lia).
  unfold binary_round_aux.
  assert (E1 : shr_fexp prec emax (c * 2 ^ j) e loc_Exact =
               (rec0 (c * 2 ^ (j - n)), e + n)).
  { unfold shr_fexp. destruct (c * 2 ^ j) as [|M|M] eqn:EM; try lia.
    cbn [Zdigits2]. rewrite digits2_log2, Hlog, fexp_small by lia.
    replace (Z.log2 c + j + 1 + e - 53 - e) with n by lia.
    cbn [shr_record_of_loc]. unfold shr.
    destruct n as [|n|n]; try lia.
    - now rewrite Z.sub_0_r, Z.add_0_r, EM.
    - f_equal. fold (rec0 (Z.pos M)). rewrite <- EM.
      replace (c * 2 ^ j) with ((c * 2 ^ (j - Z.pos n)) * 2 ^ Z.pos n).
      + apply iter_shr_exact.
      + rewrite <- Z.mul_assoc, <- Z.pow_add_r by lia. do 2 f_equal. lia. }
  rewrite E1. cbn [shr_m rec0 loc_of_shr_record round_nearest_even].
  assert (E2 : shr_fexp prec emax (c * 2 ^ (j - n)) (e + n) loc_Exact =
               (rec0 (c * 2 ^ (j - n)), e + n)).
  { unfold shr_fexp. destruct (c * 2 ^ (j - n)) as [|M|M] eqn:EM; try lia.
    cbn [Zdigits2]. rewrite digits2_log2, Hlog', fexp_small by lia.
    replace (Z.log2 c + (j - n) + 1 + (e + n) - 53 - (e + n)) with 0 by lia.
    reflexivity. }
  rewrite E2. cbn [shr_m rec0].
  destruct (c * 2 ^ (j - n)) as [|M|M] eqn:EM; try lia.
  replace (e + n <=? emax - prec) with true; [reflexivity|].
  symmetry. apply Z.leb_le. unfold emax, prec. lia.
Qed.

Lemma log2_bound (c : Z) : 0 < c < 2 ^ 53 -> 0 <= Z.log2 c <= 52.
Proof.
  intros H. split; [apply Z.log2_nonneg|].
  assert (Z.log2 c < 53) by (apply Z.log2_lt_pow2; lia). lia.
Qed.

Lemma shl_align_fst (m : positive) (e e' : Z) :
  e' <= e ->
  Z.pos (fst (shl_align m e e')) = Z.pos m * 2 ^ (e - e') /\
  snd (shl_align m e e') = e'.
Proof.
  intros H. unfold shl_align.
  destruct (e' - e) as [|d|d] eqn:E; try lia.
  - simpl. replace (e - e') with 0 by lia. change (2 ^ 0) with 1. split; lia.
  - simpl fst. simpl snd. rewrite iter_xO. pose proof (Pos2Z.opp_pos d).
    replace (e - e') with (Z.pos d) by lia. split; lia.
Qed.

Lemma shl_align_id (m : positive) (e e' : Z) :
  e <= e' -> shl_align m e e' = (m, e).
Proof.
  intros H. unfold shl_align. destruct (e' - e) as [|d|d] eqn:E; try lia; reflexivity.
Qed.

(** A whole number [c] written as [c * 2^j * 2^(-j)] normalises to its
    canonical float. *)
Lemma normalize_exact (c j : Z) :
  0 < c < 2 ^ 53 -> 0 <= j <= 1000 ->
  binary_normalize prec emax (c * 2 ^ j) (- j) false = canon c.
Proof.
  intros Hc Hj. pose proof (log2_bound c Hc) as Hl.
  assert (Hpos : 0 < c * 2 ^ j) by (apply Z.mul_pos_pos; [lia | apply Z.pow_pos_nonneg; lia]).
  assert (Hlog : Z.log2 (c * 2 ^ j) = Z.log2 c + j)
    by (rewrite Z.log2_mul_pow2; lia).
  unfold binary_normalize. destruct (c * 2 ^ j) as [|M|M] eqn:EM; try lia.
  unfold binary_round. rewrite digits2_log2, Hlog, fexp_small by lia.
  destruct (Z_le_gt_dec (- j) (Z.log2 c + j + 1 + - j - 53)) as [Hle|Hgt].
  - rewrite shl_align_id by exact Hle. rewrite <- EM.
    rewrite (round_exact c j (Z.log2 c - 52 + j) (- j) false) by lia.
    unfold canon.
    replace (j - (Z.log2 c - 52 + j)) with (52 - Z.log2 c) by lia.
    replace (- j + (Z.log2 c - 52 + j)) with (Z.log2 c - 52) by lia.
    reflexivity.
  - destruct (shl_align_fst M (- j) (Z.log2 c + j + 1 + - j - 53)) as [Hf Hs]; [lia|].
    destruct (shl_align M (- j) _) as [mz ez]. cbn [fst snd] in Hf, Hs. subst ez.
    rewrite Hf, <- EM, <- Z.mul_assoc, <- Z.pow_add_r by lia.
    rewrite (round_exact c _ 0 _ false) by lia.
    unfold canon.
    replace (j + (- j - (Z.log2 c + j + 1 + - j - 53)) - 0) with (52 - Z.log2 c) by lia.
    replace (Z.log2 c + j + 1 + - j - 53 + 0) with (Z.log2 c - 52) by lia.
    reflexivity.
Qed.

Lemma whole_canon (c : Z) : 0 < c < 2 ^ 53 -> whole c = canon c.
Proof.
  intros Hc. unfold whole. rewrite <- (normalize_exact c 0) by lia.
  now rewrite Z.mul_1_r.
Qed.

Lemma canon_pos (c : Z) : 0 < c < 2 ^ 53 ->
  Z.pos (Z.to_pos (c * 2 ^ (52 - Z.log2 c))) = c * 2 ^ (52 - Z.log2 c).
Proof.
  intros Hc. pose proof (log2_bound c Hc). apply Z2Pos.id.
  apply Z.mul_pos_pos; [lia | apply Z.pow_pos_nonneg; lia].
Qed.

Lemma SFadd_finite (ma mb : positive) (ea eb : Z) :
  SF64add (S754_finite false ma ea) (S754_finite false mb eb) =
  binary_normalize prec emax
    (Z.pos (fst (shl_align ma ea (Z.min ea eb)))
     + Z.pos (fst (shl_align mb eb (Z.min ea eb))))
    (Z.min ea eb) false.
Proof. reflexivity. Qed.

(** Adding two whole numbers is exact while the sum stays below 2^53. *)
Lemma add_exact (a b : Z) :
  0 < a -> 0 < b -> a + b < 2 ^ 53 ->
  SF64add (canon a) (canon b) = canon (a + b).
Proof.
  intros Ha Hb Hab.
  pose proof (log2_bound a ltac:(lia)) as Hla.
  pose proof (log2_bound b ltac:(lia)) as Hlb.
  unfold canon at 1 2. rewrite SFadd_finite.
  set (ez := Z.min (Z.log2 a - 52) (Z.log2 b - 52)).
  destruct (shl_align_fst (Z.to_pos (a * 2 ^ (52 - Z.log2 a))) (Z.log2 a - 52) ez) as [Hfa _];
    [unfold ez; lia|].
  destruct (shl_align_fst (Z.to_pos (b * 2 ^ (52 - Z.log2 b))) (Z.log2 b - 52) ez) as [Hfb _];
    [unfold ez; lia|].
  rewrite Hfa, Hfb, !canon_pos by lia.
  rewrite <- !Z.mul_assoc, <- !Z.pow_add_r by (unfold ez; lia).
  replace (52 - Z.log2 a + (Z.log2 a - 52 - ez)) with (- ez) by lia.
  replace (52 - Z.log2 b + (Z.log2 b - 52 - ez)) with (- ez) by lia.
  rewrite <- Z.mul_add_distr_r.
  pose proof (normalize_exact (a + b) (- ez)) as H.
  rewrite Z.opp_involutive in H. apply H; unfold ez; lia.
Qed.

Lemma SFdiv_finite (m1 m2 : positive) (e1 e2 : Z) :
  SF64div (S754_finite false m1 e1) (S754_finite false m2 e2) =
  let '(mz, ez, lz) := SFdiv_core_binary prec emax (Z.pos m1) e1 (Z.pos m2) e2 in
  binary_round_aux prec emax false mz ez lz.
Proof. reflexivity. Qed.

Lemma SFdiv_core_unfold (m1 e1 m2 e2 : Z) :
  SFdiv_core_binary prec emax m1 e1 m2 e2 =
  let e' := Z.min (fexp prec emax (Zdigits2 m1 + e1 - (Zdigits2 m2 + e2))) (e1 - e2) in
  let s := e1 - e2 - e' in
  let m' := match s with
            | Z.pos _ => Z.shiftl m1 s
            | Z0 => m1
            | Z.neg _ => 0
            end in
  let '(q, r) := Z.div_eucl m' m2 in
  (q, e', new_location m2 r).
Proof. reflexivity. Qed.

Lemma div_core_53 (M1 M2 : positive) (e1 e2 : Z) :
  Z.log2 (Z.pos M1) = 52 -> Z.log2 (Z.pos M2) = 52 ->
  -900 <= e1 - e2 <= 900 ->
  SFdiv_core_binary prec emax (Z.pos M1) e1 (Z.pos M2) e2 =
  let '(q, r) := Z.div_eucl (Z.pos M1 * 2 ^ 53) (Z.pos M2) in
  (q, e1 - e2 - 53, new_location (Z.pos M2) r).
Proof.
  intros H1 H2 He. rewrite SFdiv_core_unfold. cbn [Zdigits2].
  rewrite !digits2_log2, H1, H2, fexp_small by lia.
  replace (Z.min (52 + 1 + e1 - (52 + 1 + e2) - 53) (e1 - e2)) with (e1 - e2 - 53) by lia.
  cbv zeta. replace (e1 - e2 - (e1 - e2 - 53)) with 53 by lia.
  now rewrite Z.shiftl_mul_pow2 by lia.
Qed.

Lemma div_core_exact (M1 M2 : positive) (e1 e2 q : Z) :
  Z.log2 (Z.pos M1) = 52 -> Z.log2 (Z.pos M2) = 52 ->
  -900 <= e1 - e2 <= 900 ->
  Z.pos M1 * 2 ^ 53 = q * Z.pos M2 ->
  SFdiv_core_binary prec emax (Z.pos M1) e1 (Z.pos M2) e2 =
  (q, e1 - e2 - 53, loc_Exact).
Proof.
  intros H1 H2 He Hq. rewrite div_core_53 by assumption. rewrite Hq.
  pose proof (Z.div_mul q (Z.pos M2) ltac:(lia)) as Hd.
  pose proof (Z.mod_mul q (Z.pos M2) ltac:(lia)) as Hm.
  unfold Z.div, Z.modulo in Hd, Hm.
  destruct (Z.div_eucl (q * Z.pos M2) (Z.pos M2)) as [q' r']. subst q' r'.
  unfold new_location. destruct (Z.even (Z.pos M2)); reflexivity.
Qed.

Lemma canon_log2 (c : Z) : 0 < c < 2 ^ 53 ->
  Z.log2 (Z.pos (Z.to_pos (c * 2 ^ (52 - Z.log2 c)))) = 52.
Proof.
  intros Hc. pose proof (log2_bound c Hc).
  rewrite canon_pos by lia. rewrite Z.log2_mul_pow2; lia.
Qed.

(** Dividing a multiple by its factor is exact. *)
Lemma div_exact (k p : Z) :
  0 < k -> 0 < p -> k * p < 2 ^ 53 ->
  SF64div (canon (k * p)) (canon k) = canon p.
Proof.
  intros Hk Hp Hkp.
  assert (Hk' : 0 < k < 2 ^ 53) by nia.
  assert (Hp' : 0 < p < 2 ^ 53) by nia.
  assert (Hkp' : 0 < k * p < 2 ^ 53) by nia.
  pose proof (log2_bound _ Hk') as Hlk.
  pose proof (log2_bound _ Hp') as Hlp.
  pose proof (log2_bound _ Hkp') as Hlkp.
  pose proof (Z.log2_mul_above k p ltac:(lia) ltac:(lia)) as Habove.
  assert (Hbelow : Z.log2 k <= Z.log2 (k * p)) by (apply Z.log2_le_mono; nia).
  unfold canon at 1 2. rewrite SFdiv_finite.
  rewrite (div_core_exact _ _ _ _ (p * 2 ^ (53 + Z.log2 k - Z.log2 (k * p)))).
  - rewrite (round_exact p _ (Z.log2 p + 1 + Z.log2 k - Z.log2 (k * p)) _ false) by lia.
    unfold canon.
    replace (53 + Z.log2 k - Z.log2 (k * p) - (Z.log2 p + 1 + Z.log2 k - Z.log2 (k * p)))
      with (52 - Z.log2 p) by lia.
    replace (Z.log2 (k * p) - 52 - (Z.log2 k - 52) - 53
             + (Z.log2 p + 1 + Z.log2 k - Z.log2 (k * p)))
      with (Z.log2 p - 52) by lia.
    reflexivity.
  - now apply canon_log2.
  - now apply canon_log2.
  - lia.
  - rewrite !canon_pos by lia.
    replace (k * p * 2 ^ (52 - Z.log2 (k * p)) * 2 ^ 53)
      with (k * p * (2 ^ (52 - Z.log2 (k * p)) * 2 ^ 53)) by ring.
    replace (p * 2 ^ (53 + Z.log2 k - Z.log2 (k * p)) * (k * 2 ^ (52 - Z.log2 k)))
      with (k * p * (2 ^ (53 + Z.log2 k - Z.log2 (k * p)) * 2 ^ (52 - Z.log2 k))) by ring.
    rewrite <- !Z.pow_add_r by lia. do 2 f_equal. lia.
Qed.

Lemma loc_of_rec_of_loc (m : Z) (l : location) :
  loc_of_shr_record (shr_record_of_loc m l) = l /\ shr_m (shr_record_of_loc m l) = m.
Proof. destruct l as [|[| |]]; split; reflexivity. Qed.

Lemma shr_1_m (r : shr_record) :
  2 <= shr_m r -> shr_m (shr_1 r) = shr_m r / 2.
Proof.
  destruct r as [m r s]. cbn [shr_m]. intros H. unfold shr_1.
  destruct m as [|[q|q|]|q]; try lia; cbn [shr_m].
  - rewrite Pos2Z.inj_xI. apply Z.div_unique with 1; lia.
  - rewrite Pos2Z.inj_xO. apply Z.div_unique with 0; lia.
Qed.

Lemma round_nearest_even_bounds (m : Z) (l : location) :
  m <= round_nearest_even m l <= m + 1.
Proof.
  unfold round_nearest_even. destruct l as [|[| |]]; try lia.
  destruct (Z.even m); lia.
Qed.

Lemma log2_range (q : Z) (k : Z) : 0 <= k -> 2 ^ k <= q < 2 ^ (k + 1) -> Z.log2 q = k.
Proof. intros Hk H. apply Z.log2_unique; [lia|]. now rewrite <- Z.add_1_r. Qed.

(** One shift of a mantissa of 53 or 54 bits. *)
Lemma shr_fexp_53_54 (q e : Z) (l : location) :
  2 ^ 52 <= q < 2 ^ 54 -> -1000 <= e <= 960 ->
  exists r e', shr_fexp prec emax q e l = (r, e') /\
               2 ^ 52 <= shr_m r < 2 ^ 53 /\ e <= e' <= e + 1.
Proof.
  intros Hq He. unfold shr_fexp.
  destruct q as [|Q|Q] eqn:EQ; try lia. cbn [Zdigits2]. rewrite digits2_log2.
  destruct (Z_lt_ge_dec (Z.pos Q) (2 ^ 53)) as [Hlt|Hge].
  - rewrite (log2_range (Z.pos Q) 52) by (simpl Z.add; lia).
    rewrite fexp_small by lia. replace (52 + 1 + e - 53 - e) with 0 by lia.
    cbn [shr]. eexists _, _. split; [reflexivity|].
    destruct (loc_of_rec_of_loc (Z.pos Q) l) as [_ ->]. lia.
  - rewrite (log2_range (Z.pos Q) 53) by (simpl Z.add; lia).
    rewrite fexp_small by lia. replace (53 + 1 + e - 53 - e) with 1 by lia.
    cbn [shr iter_pos]. eexists _, _. split; [reflexivity|].
    rewrite shr_1_m; destruct (loc_of_rec_of_loc (Z.pos Q) l) as [_ ->]; [|lia].
    split; [|lia]. split.
    + apply Z.div_le_lower_bound; lia.
    + apply Z.div_lt_upper_bound; lia.
Qed.

Lemma round_finite (q e : Z) (l : location) (s : bool) :
  2 ^ 52 <= q < 2 ^ 54 -> -1000 <= e <= 900 ->
  exists m e', binary_round_aux prec emax s q e l = S754_finite s m e'.
Proof.
  intros Hq He. unfold binary_round_aux.
  destruct (shr_fexp_53_54 q e l Hq ltac:(lia)) as (r1 & e1 & -> & Hr1 & He1).
  pose proof (round_nearest_even_bounds (shr_m r1) (loc_of_shr_record r1)) as Hrn.
  destruct (shr_fexp_53_54 (round_nearest_even (shr_m r1) (loc_of_shr_record r1)) e1 loc_Exact)
    as (r2 & e2 & -> & Hr2 & He2); [lia | lia |].
  destruct (shr_m r2) as [|M|M]; try lia.
  replace (e2 <=? emax - prec) with true; [now eexists _, _|].
  symmetry. apply Z.leb_le. unfold emax, prec. lia.
Qed.

(** The quotient of two whole numbers below 2^53 is an ordinary positive
    float. *)
Lemma div_finite (a b : Z) :
  0 < a < 2 ^ 53 -> 0 < b < 2 ^ 53 ->
  exists m e, SF64div (canon a) (canon b) = S754_finite false m e.
Proof.
  intros Ha Hb.
  pose proof (log2_bound _ Ha) as Hla. pose proof (log2_bound _ Hb) as Hlb.
  unfold canon. rewrite SFdiv_finite.
  rewrite div_core_53 by (try apply canon_log2; try assumption; lia).
  pose proof (canon_log2 a Ha) as HA. pose proof (canon_log2 b Hb) as HB.
  set (A := Z.pos (Z.to_pos (a * 2 ^ (52 - Z.log2 a)))) in *.
  set (B := Z.pos (Z.to_pos (b * 2 ^ (52 - Z.log2 b)))) in *.
  assert (HA' : 2 ^ 52 <= A < 2 ^ 53).
  { pose proof (Z.log2_spec A ltac:(unfold A; lia)) as HS. rewrite HA in HS. exact HS. }
  assert (HB' : 2 ^ 52 <= B < 2 ^ 53).
  { pose proof (Z.log2_spec B ltac:(unfold B; lia)) as HS. rewrite HB in HS. exact HS. }
  clearbody A B.
  pose proof (Z.div_eucl_eq (A * 2 ^ 53) B ltac:(lia)) as Heq.
  pose proof (Z.mod_pos_bound (A * 2 ^ 53) B ltac:(lia)) as Hbd.
  unfold Z.modulo in Hbd.
  destruct (Z.div_eucl (A * 2 ^ 53) B) as [q r].
  apply round_finite; [|lia].
  change (2 ^ 52) with 4503599627370496 in *.
  change (2 ^ 53) with 9007199254740992 in *.
  change (2 ^ 54) with 18014398509481984. nia.
Qed.

End WholeNumbers.

(** ** Decoupling of a steady ride *)

Module SteadyFacts.

Import WholeNumbers.

Lemma float_of_nat_spec (n : nat) :
  (Z.of_nat n < 2 ^ 53)%Z -> Prim2SF (float_of_nat n) = whole (Z.of_nat n).
Proof.
  intros H. unfold float_of_nat, whole.
  rewrite of_uint63_spec, Uint63.of_Z_spec, Z.mod_small; [reflexivity|].
  split; [lia|]. eapply Z.lt_trans; [exact H | reflexivity].
Qed.

Lemma float_of_nat_canon (n : nat) :
  (0 < n)%nat -> (Z.of_nat n < 2 ^ 53)%Z ->
  Prim2SF (float_of_nat n) = canon (Z.of_nat n).
Proof.
  intros H0 H. rewrite float_of_nat_spec by exact H. apply whole_canon. lia.
Qed.

Lemma whole_not_nan (n : nat) :
  (Z.of_nat n < 2 ^ 53)%Z -> PrimFloat.is_nan (float_of_nat n) = false.
Proof.
  intros H. destruct (PrimFloat.is_nan (float_of_nat n)) eqn:E; [|reflexivity].
  apply FloatFacts.Prim2SF_nan in E. destruct n as [|n]; [discriminate|].
  rewrite float_of_nat_canon in E by (try exact H; lia). discriminate.
Qed.

(** Adding two whole numbers does not round. *)
Lemma add_whole (a b : nat) :
  (0 < b)%nat -> (Z.of_nat (a + b) < 2 ^ 53)%Z ->
  float_of_nat a + float_of_nat b = float_of_nat (a + b).
Proof.
  intros Hb H. apply Prim2SF_inj. rewrite add_spec.
  rewrite (float_of_nat_canon b), (float_of_nat_canon (a + b)) by lia.
  destruct a as [|a]; [reflexivity|].
  rewrite (float_of_nat_canon (S a)) by lia.
  rewrite Nat2Z.inj_add. apply add_exact; lia.
Qed.

(** Dividing a multiple by its factor does not round. *)
Lemma div_whole (k p : nat) :
  (0 < k)%nat -> (0 < p)%nat -> (Z.of_nat (k * p) < 2 ^ 53)%Z ->
  float_of_nat (k * p) / float_of_nat k = float_of_nat p.
Proof.
  intros Hk Hp H. apply Prim2SF_inj. rewrite div_spec.
  rewrite !float_of_nat_canon by nia.
  rewrite Nat2Z.inj_mul. apply div_exact; lia.
Qed.

Lemma fsum_repeat_whole (p k a : nat) :
  (0 < p)%nat -> (Z.of_nat (a + k * p) < 2 ^ 53)%Z ->
  fold_left PrimFloat.add (repeat (float_of_nat p) k) (float_of_nat a) =
  float_of_nat (a + k * p).
Proof.
  intros Hp. revert a. induction k as [|k IH]; intros a H; simpl.
  - now rewrite Nat.add_0_r.
  - rewrite add_whole by lia. rewrite IH by lia. f_equal. lia.
Qed.

(** The mean of [k] copies of a whole number is that number. *)
Lemma mean_repeat_whole (p k : nat) :
  (0 < k)%nat -> (0 < p)%nat -> (Z.of_nat (k * p) < 2 ^ 53)%Z ->
  mean (repeat (float_of_nat p) k) = float_of_nat p.
Proof.
  intros Hk Hp H. rewrite MetricsFacts.mean_no_nan.
  - unfold arith_mean, fsum. rewrite repeat_length.
    change 0 with (float_of_nat 0).
    rewrite fsum_repeat_whole by (simpl; lia). simpl Nat.add.
    now apply div_whole.
  - apply Forall_forall. intros x Hx. apply repeat_spec in Hx. subst x.
    apply whole_not_nan. nia.
  - destruct k; [lia | discriminate].
Qed.

(** The ratio of two whole numbers is an ordinary positive float. *)
Lemma ratio_finite (p h : nat) :
  (0 < p)%nat -> (0 < h)%nat ->
  (Z.of_nat p < 2 ^ 53)%Z -> (Z.of_nat h < 2 ^ 53)%Z ->
  exists m e, Prim2SF (float_of_nat p / float_of_nat h) = S754_finite false m e.
Proof.
  intros Hp Hh Bp Bh. rewrite div_spec, !float_of_nat_canon by lia.
  apply div_finite; lia.
Qed.

(** The decoupling formula on two equal positive efficiency factors. *)
Lemma residue_zero_pos (x : float) (m : positive) (e : Z) :
  Prim2SF x = S754_finite false m e -> (x - x) / x * 100 = 0.
Proof.
  intros Hx. apply Prim2SF_inj.
  now rewrite mul_spec, div_spec, sub_spec, Hx, FloatFacts.SFsub_self.
Qed.

Lemma steady_columns (p h : float) (l : list RideSample) :
  Steady p h l ->
  map power l = repeat p (List.length l) /\
  map heart_rate l = repeat h (List.length l).
Proof.
  induction 1 as [|s l [Hp Hh] _ [IHp IHh]]; simpl; [now split|].
  now rewrite Hp, Hh, IHp, IHh.
Qed.

Lemma steady_active (p h : float) (df : list RideSample) :
  Steady p h df -> active_rows df <> [] -> active_rows df = df.
Proof.
  intros Hs Hne. unfold active_rows in *.
  assert (Hp : (10 <? p) = true).
  { destruct (filter _ df) as [|s l] eqn:E; [congruence|].
    assert (Hin : In s (filter (fun s => 10 <? power s) df)) by (rewrite E; now left).
    apply filter_In in Hin as [Hin Hs10].
    unfold Steady in Hs. rewrite Forall_forall in Hs.
    now destruct (Hs _ Hin) as [<- _]. }
  clear Hne. induction Hs as [|s l [Hsp _] _ IH]; simpl; [reflexivity|].
  now rewrite Hsp, Hp, IH.
Qed.

(** The decoupling [calculate_metrics] returns, by the two halves. *)
Lemma decoupling_halves (df : list RideSample) (m : RideMetrics) :
  calculate_metrics df = Some m ->
  let active := active_rows df in
  let mid := Nat.div (List.length active) 2 in
  let h1 := firstn mid active in
  let h2 := skipn mid active in
  active <> [] /\
  decoupling m =
  if (0 <? List.length h1)%nat && (0 <? List.length h2)%nat
  then (mean (map power h1) / mean (map heart_rate h1)
        - mean (map power h2) / mean (map heart_rate h2))
       / (mean (map power h1) / mean (map heart_rate h1)) * 100
  else 0.
Proof.
  intros Hm. cbv zeta.
  destruct (active_rows df) as [|a act] eqn:E.
  - unfold calculate_metrics in Hm. rewrite E in Hm. discriminate.
  - split; [discriminate|].
    rewrite MetricsFacts.calculate_metrics_some in Hm by congruence.
    rewrite E in Hm. cbv zeta in Hm. injection Hm as <-. reflexivity.
Qed.

Lemma half_lengths (n : nat) :
  (2 <= n)%nat -> (0 < Nat.div n 2)%nat /\ (0 < n - Nat.div n 2)%nat /\
                  (Nat.div n 2 <= n)%nat.
Proof.
  intros H. pose proof (Nat.div_mod_eq n 2) as E.
  pose proof (Nat.mod_upper_bound n 2 ltac:(lia)). lia.
Qed.

Lemma steady_firstn (p h : float) (k : nat) (l : list RideSample) :
  Steady p h l -> Steady p h (firstn k l).
Proof.
  unfold Steady. intros H. revert k.
  induction H as [|s l Hs _ IH]; intros [|k]; simpl; constructor; auto.
Qed.

Lemma steady_skipn (p h : float) (k : nat) (l : list RideSample) :
  Steady p h l -> Steady p h (skipn k l).
Proof.
  unfold Steady. intros H. revert k.
  induction H as [|s l Hs Hl IH]; intros [|k]; simpl; auto.
Qed.

End SteadyFacts.

Module SteadyRide.

Import SteadyFacts Tables.

(** The steady ride [ride_100_1] has a decoupling that is not 0: the claim
    C7 as stated fails on it. *)
Lemma steady_ride_rounding_residue :
  Steady (1001 / 10) 140 ride_100_1 /\
  active_rows ride_100_1 = ride_100_1 /\
  mean (map power (firstn 2 ride_100_1)) = 1001 / 10 /\
  mean (map power (skipn 2 ride_100_1)) = PrimFloat.next_down (1001 / 10) /\
  exists m,
    calculate_metrics ride_100_1 = Some m /\
    (decoupling m =? 0) = false /\
    (0 <? decoupling m) = true.
Proof.
  split; [repeat constructor|].
  split; [reflexivity|]. split; [reflexivity|]. split; [reflexivity|].
  eexists. split; [reflexivity|]. split; reflexivity.
Qed.

(** C7, amended.  When the midpoint split leaves a half empty, the
    decoupling is 0.  On a ride with constant power and constant heart
    rate throughout the decoupling is exactly 0 when power and heart rate
    are whole numbers (their sums over the ride below 2^53), and also when
    the number of samples is even and the efficiency factor of a half is
    an ordinary non-zero number. *)
Theorem steady_ride_decoupling (df : list RideSample) (m : RideMetrics) :
  calculate_metrics df = Some m ->
  let active := filter (fun s => 10 <? power s) df in
  let mid := Nat.div (List.length active) 2 in
  (firstn mid active = [] \/ skipn mid active = [] -> decoupling m = 0) /\
  (forall np nh : nat,
     Steady (float_of_nat np) (float_of_nat nh) df ->
     (0 < nh)%nat ->
     (Z.of_nat (List.length df * np) < 2 ^ 53)%Z ->
     (Z.of_nat (List.length df * nh) < 2 ^ 53)%Z ->
     decoupling m = 0) /\
  (forall p h : float,
     Steady p h df ->
     Nat.even (List.length df) = true ->
     finite_nonzero
       (mean (repeat p (Nat.div (List.length df) 2))
        / mean (repeat h (Nat.div (List.length df) 2))) = true ->
     (decoupling m =? 0) = true).
Proof.
  intros Hm active mid. fold (active_rows df) in active.
  destruct (decoupling_halves df m Hm) as [Hne Hdec].
  fold active in Hne, Hdec. fold mid in Hdec.
  split; [|split].
  - intros [H|H]; rewrite Hdec, H; cbn [List.length Nat.ltb Nat.leb andb];
      [reflexivity | now rewrite andb_false_r].
  - intros np nh Hs Hnh Bp Bh.
    assert (Hact : active = df) by (apply steady_active with (1 := Hs); exact Hne).
    assert (Hnp : (0 < np)%nat).
    { destruct np; [|lia]. exfalso. apply Hne. unfold active, active_rows.
      clear -Hs. induction Hs as [|s l [Hp _] _ IH]; simpl; [reflexivity|].
      now rewrite Hp, IH. }
    rewrite Hdec, Hact. unfold mid. rewrite Hact.
    destruct (Nat.le_gt_cases (List.length df) 1) as [Hle|Hgt].
    { destruct df as [|s [|s' df']]; simpl in Hle; try lia; reflexivity. }
    destruct (half_lengths (List.length df) Hgt) as (Hk1 & Hk2 & Hk3).
    set (k := Nat.div (List.length df) 2) in *.
    rewrite length_firstn, length_skipn, Nat.min_l by exact Hk3.
    replace (0 <? k)%nat with true by (symmetry; now apply Nat.ltb_lt).
    replace (0 <? List.length df - k)%nat with true by (symmetry; now apply Nat.ltb_lt).
    cbn [andb].
    destruct (steady_columns _ _ (firstn k df) (steady_firstn _ _ k _ Hs)) as [-> ->].
    destruct (steady_columns _ _ (skipn k df) (steady_skipn _ _ k _ Hs)) as [-> ->].
    rewrite length_firstn, length_skipn, Nat.min_l by exact Hk3.
    rewrite !mean_repeat_whole by nia.
    destruct (ratio_finite np nh Hnp Hnh) as (mx & ex & Hx); [nia | nia |].
    now apply residue_zero_pos with mx ex.
  - intros p h Hs Heven Hfin.
    assert (Hact : active = df) by (apply steady_active with (1 := Hs); exact Hne).
    rewrite Hdec, Hact. unfold mid. rewrite Hact.
    destruct (Nat.even_spec (List.length df)) as [Hev _].
    destruct (Hev Heven) as [k Hk].
    assert (Hdiv : Nat.div (List.length df) 2 = k)
      by (rewrite Hk, Nat.mul_comm; now apply Nat.div_mul).
    rewrite Hdiv in *.
    destruct (steady_columns _ _ (firstn k df) (steady_firstn _ _ k _ Hs)) as [-> ->].
    destruct (steady_columns _ _ (skipn k df) (steady_skipn _ _ k _ Hs)) as [-> ->].
    rewrite length_firstn, length_skipn, Nat.min_l by lia.
    replace (List.length df - k)%nat with k by lia.
    destruct (0 <? k)%nat; [|reflexivity]. cbn [andb].
    now apply FloatFacts.residue_zero.
Qed.

(** The amended claim on [ride_150]: seven samples at 150 W, 140 bpm. *)
Lemma steady_ride_decoupling_witness :
  exists m, calculate_metrics ride_150 = Some m /\ decoupling m = 0.
Proof.
  eexists. split; [reflexivity|].
  refine (proj1 (proj2 (steady_ride_decoupling ride_150 _ eq_refl)) 150%nat 140%nat _ _ _ _).
  - repeat constructor.
  - lia.
  - simpl. lia.
  - simpl. lia.
Defined.

End SteadyRide.

(** ** The two layouts on concrete tables *)

Module TableFacts.

Import Tables.

(** C2.  The standard layout keeps a power value that is not a number: on
    [text_power_table] no row is dropped and the power column comes out as
    the texts "150" and "abc", where the claim has the unparseable value
    absent and its row dropped. *)
Theorem standard_layout_keeps_unparsed_power
    (to_datetime to_numeric : Series -> Series) (t1 t2 : Z) (ui : list ui_event) :
  to_datetime [CStr "2024-01-01 10:00:00"; CStr "2024-01-01 10:00:01"] =
  [CTime t1; CTime t2] ->
  parse_table to_datetime to_numeric text_power_table ui =
  (Ok [("timestamp", [CTime t1; CTime t2]);
       ("power", [CStr "150"; CStr "abc"])], ui).
Proof.
  intros H. unfold parse_table, bind, map_standard, text_power_table. cbn.
  rewrite H. reflexivity.
Qed.

Lemma standard_layout_keeps_unparsed_power_run :
  parse_table demo_to_datetime demo_to_numeric text_power_table [] =
  (Ok [("timestamp", [CTime 0; CTime 0]);
       ("power", [CStr "150"; CStr "abc"])], []).
Proof.
  exact (standard_layout_keeps_unparsed_power
           demo_to_datetime demo_to_numeric 0 0 [] eq_refl).
Defined.

(** The shifted layout does coerce the power column: the row whose power
    is not a number is dropped. *)
Lemma shifted_layout_drops_unparsed_power
    (to_datetime to_numeric : Series -> Series) (t1 t2 : Z) (ui : list ui_event) :
  to_datetime [CStr "2024-01-01T10:00:00"; CStr "2024-01-01T10:00:01"] =
  [CTime t1; CTime t2] ->
  to_numeric [CInt 140; CInt 141] = [CInt 140; CInt 141] ->
  to_numeric [CInt 90; CInt 91] = [CInt 90; CInt 91] ->
  to_numeric [CStr "150"; CStr "abc"] = [CInt 150; NaN] ->
  parse_table to_datetime to_numeric shifted_table ui =
  (Ok [("timestamp", [CTime t1]); ("heart_rate", [CInt 140]);
       ("cadence", [CInt 90]); ("power", [CInt 150])], ui).
Proof.
  intros Ht Ha Hh Hs. unfold parse_table, bind, remap_shifted, shifted_table. cbn.
  rewrite Ht, Ha, Hh, Hs. reflexivity.
Qed.

(** A table with none of the known columns: [dropna] raises [KeyError],
    which [parse_file] reports, returning the empty table. *)
Lemma unknown_columns_are_reported
    (to_datetime to_numeric : Series -> Series) (ui : list ui_event) :
  parse_table to_datetime to_numeric [("lap", [CInt 1; CInt 2])] ui =
  (Raise (KeyError ["timestamp"; "power"]), ui) /\
  parse_file unit (fun _ => Ok [("lap", [CInt 1; CInt 2])])
             to_datetime to_numeric tt ui =
  (Ok empty_frame, ui ++ [StError (KeyError ["timestamp"; "power"])]).
Proof. split; reflexivity. Qed.

(** The shifted layout on a table without the [altitude] column. *)
Lemma shifted_without_altitude_is_reported
    (to_datetime to_numeric : Series -> Series) (ui : list ui_event) :
  parse_file unit (fun _ => Ok [("GOTOES_CSV", [CStr "2024-01-01T10:00:00"]);
                                ("speed", [CInt 150])])
             to_datetime to_numeric tt ui =
  (Ok empty_frame, ui ++ [StError (KeyError ["altitude"])]).
Proof. reflexivity. Qed.

(** A marker column of numbers does not trigger the shifted layout. *)
Lemma numeric_marker_is_standard : is_shifted numeric_marker_table = false.
Proof. reflexivity. Qed.

End TableFacts.

(** ** The theorems on concrete inputs *)

Module Runs.

Import Tables TableFacts.


(** The file that cannot be read gives the empty table and one error on
    the page. *)
Lemma parse_file_on_unreadable_file :
  parse_file string demo_read_csv demo_to_datetime demo_to_numeric "" [] =
  (Ok empty_frame, [StError (ReadError "No columns to parse from file")]).
Proof.
  exact (proj1 (proj2 (parse_file_never_raises
                         string demo_read_csv demo_to_datetime demo_to_numeric "" []))
               (ReadError "No columns to parse from file") eq_refl).
Defined.

(** Two samples at 5 W and 10 W: no active sample. *)
Lemma no_metrics_at_low_power :
  calculate_metrics [mkSample 0 140 90 5; mkSample 1 141 91 10] = None.
Proof.
  apply (MetricsFacts.calculate_metrics_none_iff_no_active_sample
           [mkSample 0 140 90 5; mkSample 1 141 91 10]).
  repeat constructor.
Defined.


(** A decoupling of 4 gives the Good-efficiency message. *)
Lemma good_efficiency_at_4 :
  In EfficiencyGood (generate_coach_feedback (mkMetrics 60 150 151 140 88 1 4)).
Proof.
  apply (CoachFacts.decoupling_message_by_threshold (mkMetrics 60 150 151 140 88 1 4));
    reflexivity.
Defined.

End Runs.

(** ** More facts of binary64 comparison and NaN *)

Module FloatMore.

(** [x < y] excludes [y <= x]. *)
Lemma ltb_not_leb (x y : float) : (x <? y) = true -> (y <=? x) = false.
Proof.
  rewrite FloatAxioms.leb_spec, FloatAxioms.ltb_spec. unfold SFleb, SFltb.
  rewrite (FloatFacts.SFcompare_antisym (Prim2SF x) (Prim2SF y)).
  destruct (SFcompare (Prim2SF x) (Prim2SF y)) as [[ | | ]|]; simpl; congruence.
Qed.

Lemma SFcompare_nan_r (x : spec_float) : SFcompare x S754_nan = None.
Proof. now destruct x. Qed.

(** Every comparison with NaN is false. *)
Lemma nan_compare (x y : float) :
  PrimFloat.is_nan x = true ->
  (x <? y) = false /\ (y <? x) = false /\ (x <=? y) = false /\ (y <=? x) = false.
Proof.
  intros H. apply FloatFacts.Prim2SF_nan in H.
  rewrite !FloatAxioms.leb_spec, !FloatAxioms.ltb_spec. unfold SFleb, SFltb.
  rewrite H, SFcompare_nan_r. simpl. auto.
Qed.

(** NaN goes through the four operations of the decoupling formula. *)
Lemma nan_div_r (x y : float) :
  PrimFloat.is_nan y = true -> PrimFloat.is_nan (x / y) = true.
Proof.
  intros H. apply FloatFacts.Prim2SF_nan in H. apply FloatFacts.Prim2SF_nan.
  rewrite div_spec, H. now destruct (Prim2SF x).
Qed.

Lemma nan_div_l (x y : float) :
  PrimFloat.is_nan x = true -> PrimFloat.is_nan (x / y) = true.
Proof.
  intros H. apply FloatFacts.Prim2SF_nan in H. apply FloatFacts.Prim2SF_nan.
  now rewrite div_spec, H.
Qed.

Lemma nan_sub_l (x y : float) :
  PrimFloat.is_nan x = true -> PrimFloat.is_nan (x - y) = true.
Proof.
  intros H. apply FloatFacts.Prim2SF_nan in H. apply FloatFacts.Prim2SF_nan.
  now rewrite sub_spec, H.
Qed.

Lemma nan_mul_l (x y : float) :
  PrimFloat.is_nan x = true -> PrimFloat.is_nan (x * y) = true.
Proof.
  intros H. apply FloatFacts.Prim2SF_nan in H. apply FloatFacts.Prim2SF_nan.
  now rewrite mul_spec, H.
Qed.

End FloatMore.

(** ** The coaching rules, zone by zone *)

Module CoachRules.

(** The comparisons of the decoupling and cadence rules, by cases. *)
Ltac other_rules m :=
  (destruct (decoupling m <? 3); [| destruct (decoupling m <? 5)]);
  (destruct (avg_cad m <? 85); [| destruct (90 <? avg_cad m)]).

Ltac power_and_decoupling m :=
  (destruct (avg_pwr m <? 115);
   [| destruct ((125 <=? avg_pwr m) && (avg_pwr m <=? 140));
      [| destruct ((140 <? avg_pwr m) && (avg_pwr m <=? 155));
         [| destruct (160 <? avg_pwr m)]]]);
  (destruct (decoupling m <? 3); [| destruct (decoupling m <? 5)]).

Lemma above (a b x : float) :
  (a <=? b) = true -> (b <=? x) = true -> (x <? a) = false.
Proof.
  intros Hab Hbx. apply FloatFacts.leb_not_ltb.
  now apply FloatFacts.leb_trans with b.
Qed.

Lemma not_below (a b x : float) :
  (a <=? b) = true -> (b <? x) = true -> (x <=? a) = false.
Proof.
  intros Hab Hbx. destruct (x <=? a) eqn:E; [|reflexivity].
  pose proof (FloatFacts.leb_trans _ _ _ E Hab) as H.
  apply FloatMore.ltb_not_leb in Hbx. congruence.
Qed.

Lemma not_above (a b x : float) :
  (a <=? b) = true -> (x <? a) = true -> (b <? x) = false.
Proof.
  intros Hab Hxa. destruct (b <? x) eqn:E; [|reflexivity].
  apply FloatFacts.ltb_leb in E.
  pose proof (FloatFacts.leb_trans _ _ _ Hab E) as H.
  apply FloatMore.ltb_not_leb in Hxa. congruence.
Qed.

(** The power rule: below 115 the Recovery-ride message, from 125 to 140
    the Sweet-spot message, above 140 and up to 155 the High-Z2 message,
    above 160 the Intensity alert; each is then the only power message. *)
Theorem power_message_by_zone (m : RideMetrics) :
  ((avg_pwr m <? 115) = true ->
   messages_of PowerCheck (generate_coach_feedback m) = [RecoveryRide]) /\
  ((125 <=? avg_pwr m) = true -> (avg_pwr m <=? 140) = true ->
   messages_of PowerCheck (generate_coach_feedback m) = [SweetSpotZ2]) /\
  ((140 <? avg_pwr m) = true -> (avg_pwr m <=? 155) = true ->
   messages_of PowerCheck (generate_coach_feedback m) = [HighZ2]) /\
  ((160 <? avg_pwr m) = true ->
   messages_of PowerCheck (generate_coach_feedback m) = [IntensityAlert]).
Proof.
  repeat split.
  - intros H. unfold generate_coach_feedback. rewrite H.
    other_rules m; reflexivity.
  - intros H1 H2. unfold generate_coach_feedback.
    rewrite (above 115 125 _ eq_refl H1), H1, H2.
    other_rules m; reflexivity.
  - intros H1 H2. unfold generate_coach_feedback.
    rewrite (above 115 140 _ eq_refl (FloatFacts.ltb_leb _ _ H1)).
    rewrite (FloatMore.ltb_not_leb _ _ H1), andb_false_r, H1, H2.
    other_rules m; reflexivity.
  - intros H. unfold generate_coach_feedback.
    rewrite (above 115 160 _ eq_refl (FloatFacts.ltb_leb _ _ H)).
    rewrite (not_below 140 160 _ eq_refl H), (not_below 155 160 _ eq_refl H).
    rewrite !andb_false_r, H.
    other_rules m; reflexivity.
Qed.

(** The gaps of the power rule: an average power from 115 to below 125,
    or above 155 and up to 160, or one that is NaN, gives no power message
    at all. *)
Theorem power_rule_gaps (m : RideMetrics) :
  ((115 <=? avg_pwr m) = true -> (avg_pwr m <? 125) = true ->
   messages_of PowerCheck (generate_coach_feedback m) = []) /\
  ((155 <? avg_pwr m) = true -> (avg_pwr m <=? 160) = true ->
   messages_of PowerCheck (generate_coach_feedback m) = []) /\
  (PrimFloat.is_nan (avg_pwr m) = true ->
   messages_of PowerCheck (generate_coach_feedback m) = []).
Proof.
  repeat split.
  - intros H1 H2. unfold generate_coach_feedback.
    rewrite (FloatFacts.leb_not_ltb _ _ H1), (FloatMore.ltb_not_leb _ _ H2).
    rewrite (not_above 125 140 _ eq_refl H2), (not_above 125 160 _ eq_refl H2).
    cbn [andb]. other_rules m; reflexivity.
  - intros H1 H2. unfold generate_coach_feedback.
    rewrite (above 115 155 _ eq_refl (FloatFacts.ltb_leb _ _ H1)).
    rewrite (not_below 140 155 _ eq_refl H1), (FloatMore.ltb_not_leb _ _ H1).
    rewrite (FloatFacts.leb_not_ltb _ _ H2), !andb_false_r.
    other_rules m; reflexivity.
  - intros H. unfold generate_coach_feedback.
    destruct (FloatMore.nan_compare (avg_pwr m) 115 H) as (-> & _ & _ & _).
    destruct (FloatMore.nan_compare (avg_pwr m) 125 H) as (_ & _ & _ & ->).
    destruct (FloatMore.nan_compare (avg_pwr m) 140 H) as (_ & -> & _ & _).
    destruct (FloatMore.nan_compare (avg_pwr m) 160 H) as (_ & -> & _ & _).
    cbn [andb]. other_rules m; reflexivity.
Qed.

(** The cadence rule: below 85 the Grind warning, above 90 the Spin-to-Win
    message, each the only cadence message; from 85 to 90, and on a NaN
    cadence, no cadence message. *)
Theorem cadence_message_by_zone (m : RideMetrics) :
  ((avg_cad m <? 85) = true ->
   messages_of CadenceCheck (generate_coach_feedback m) = [GrindWarning]) /\
  ((90 <? avg_cad m) = true ->
   messages_of CadenceCheck (generate_coach_feedback m) = [SpinToWin]) /\
  ((85 <=? avg_cad m) = true -> (avg_cad m <=? 90) = true ->
   messages_of CadenceCheck (generate_coach_feedback m) = []) /\
  (PrimFloat.is_nan (avg_cad m) = true ->
   messages_of CadenceCheck (generate_coach_feedback m) = []).
Proof.
  repeat split.
  - intros H. unfold generate_coach_feedback. rewrite H.
    power_and_decoupling m; reflexivity.
  - intros H. unfold generate_coach_feedback.
    rewrite (above 85 90 _ eq_refl (FloatFacts.ltb_leb _ _ H)), H.
    power_and_decoupling m; reflexivity.
  - intros H1 H2. unfold generate_coach_feedback.
    rewrite (FloatFacts.leb_not_ltb _ _ H1), (FloatFacts.leb_not_ltb _ _ H2).
    power_and_decoupling m; reflexivity.
  - intros H. unfold generate_coach_feedback.
    destruct (FloatMore.nan_compare (avg_cad m) 85 H) as (-> & _ & _ & _).
    destruct (FloatMore.nan_compare (avg_cad m) 90 H) as (_ & -> & _ & _).
    power_and_decoupling m; reflexivity.
Qed.

(** The feedback lists its messages rule by rule: the power message, if
    any, then the decoupling message, then the cadence message, if any. *)
Theorem feedback_in_rule_order (m : RideMetrics) :
  generate_coach_feedback m =
  messages_of PowerCheck (generate_coach_feedback m)
  ++ messages_of DecouplingCheck (generate_coach_feedback m)
  ++ messages_of CadenceCheck (generate_coach_feedback m).
Proof.
  unfold generate_coach_feedback. power_and_decoupling m;
    (destruct (avg_cad m <? 85); [| destruct (90 <? avg_cad m)]); reflexivity.
Qed.

(** A decoupling that is NaN (no heart-rate data in a half, or 0/0) falls
    through both comparisons: the one decoupling message is then the Drift
    alert, which carries the NaN. *)
Theorem nan_decoupling_gives_drift_alert (m : RideMetrics) :
  PrimFloat.is_nan (decoupling m) = true ->
  messages_of DecouplingCheck (generate_coach_feedback m) =
  [DriftAlert (decoupling m)].
Proof.
  intros H. unfold generate_coach_feedback.
  destruct (FloatMore.nan_compare (decoupling m) 3 H) as (-> & _ & _ & _).
  destruct (FloatMore.nan_compare (decoupling m) 5 H) as (-> & _ & _ & _).
  (destruct (avg_pwr m <? 115);
   [| destruct ((125 <=? avg_pwr m) && (avg_pwr m <=? 140));
      [| destruct ((140 <? avg_pwr m) && (avg_pwr m <=? 155));
         [| destruct (160 <? avg_pwr m)]]]);
  (destruct (avg_cad m <? 85); [| destruct (90 <? avg_cad m)]); reflexivity.
Qed.

End CoachRules.

(** ** More on the metrics *)

Module MetricsMore.

Import SteadyFacts.

Lemma active_rows_idempotent (df : list RideSample) :
  active_rows (active_rows df) = active_rows df.
Proof.
  unfold active_rows. induction df as [|s df IH]; simpl; [reflexivity|].
  destruct (10 <? power s) eqn:E; simpl; [now rewrite E, IH | exact IH].
Qed.

(** Rows at rest count for the duration and for nothing else: without
    them [calculate_metrics] returns the same averages, efficiency factor
    and decoupling, and the duration of the active rows alone. *)
Theorem rest_rows_only_change_duration (df : list RideSample) (m : RideMetrics) :
  calculate_metrics df = Some m ->
  calculate_metrics (filter (fun s => 10 <? power s) df) =
  Some (mkMetrics
          (float_of_nat (List.length (filter (fun s => (10 <? power s)%float) df)) / 60)
          (avg_pwr m) (norm_pwr m) (avg_hr m) (avg_cad m) (ef m) (decoupling m)).
Proof.
  intros Hm. fold (active_rows df).
  destruct (decoupling_halves df m Hm) as [Hne _].
  rewrite MetricsFacts.calculate_metrics_some in Hm by exact Hne.
  injection Hm as <-.
  rewrite MetricsFacts.calculate_metrics_some
    by (rewrite active_rows_idempotent; exact Hne).
  now rewrite active_rows_idempotent.
Qed.

Lemma rest_rows_only_change_duration_run :
  calculate_metrics [mkSample 0 140 90 150; mkSample 2 150 92 160] =
  Some (mkMetrics (2 / 60) 155 (PrimFloat.sqrt 24050) 145 91 (155 / 145)
                  ((150 / 140 - 160 / 150) / (150 / 140) * 100)).
Proof.
  exact (rest_rows_only_change_duration
           [mkSample 0 140 90 150; mkSample 1 100 0 0; mkSample 2 150 92 160]
           _ eq_refl).
Defined.

Lemma mean_all_nan (xs : list float) :
  Forall (fun x => PrimFloat.is_nan x = true) xs -> mean xs = PrimFloat.nan.
Proof.
  intros H. unfold mean.
  replace (filter (fun x => negb (PrimFloat.is_nan x)) xs) with (@nil float);
    [reflexivity|].
  induction H as [|x xs Hx _ IH]; simpl; [reflexivity|]. now rewrite Hx.
Qed.

Lemma no_heart_rate_part (l : list RideSample) :
  Forall (fun s => PrimFloat.is_nan (heart_rate s) = true) l ->
  mean (map heart_rate l) = PrimFloat.nan.
Proof. intros H. apply mean_all_nan. now apply Forall_map. Qed.

Lemma Forall_firstn_skipn {A} (P : A -> Prop) (k : nat) (l : list A) :
  Forall P l -> Forall P (firstn k l) /\ Forall P (skipn k l).
Proof.
  intros H. rewrite <- (firstn_skipn k l) in H. now apply Forall_app in H.
Qed.

(** A ride without any heart-rate value: the average heart rate is NaN,
    the efficiency factor is 0, and, with two active samples or more, the
    decoupling is NaN. *)
Theorem ride_without_heart_rate (df : list RideSample) (m : RideMetrics) :
  calculate_metrics df = Some m ->
  Forall (fun s => PrimFloat.is_nan (heart_rate s) = true) df ->
  PrimFloat.is_nan (avg_hr m) = true /\
  ef m = 0 /\
  ((2 <= List.length (filter (fun s => (10 <? power s)%float) df))%nat ->
   PrimFloat.is_nan (decoupling m) = true).
Proof.
  intros Hm Hall. fold (active_rows df).
  destruct (decoupling_halves df m Hm) as [Hne Hdec].
  assert (Hact : Forall (fun s => PrimFloat.is_nan (heart_rate s) = true) (active_rows df)).
  { unfold active_rows. apply Forall_forall. intros s Hs.
    apply filter_In in Hs as [Hs _]. rewrite Forall_forall in Hall. now apply Hall. }
  split; [|split].
  - rewrite MetricsFacts.calculate_metrics_some in Hm by exact Hne.
    injection Hm as <-. cbn [avg_hr]. now rewrite (no_heart_rate_part _ Hact).
  - rewrite MetricsFacts.calculate_metrics_some in Hm by exact Hne.
    injection Hm as <-. cbn [ef]. now rewrite (no_heart_rate_part _ Hact).
  - intros Hlen. rewrite Hdec. clear Hdec.
    destruct (half_lengths _ Hlen) as (Hk1 & Hk2 & Hk3).
    set (k := Nat.div (List.length (active_rows df)) 2) in *.
    rewrite length_firstn, length_skipn, Nat.min_l by exact Hk3.
    replace (0 <? k)%nat with true by (symmetry; now apply Nat.ltb_lt).
    replace (0 <? List.length (active_rows df) - k)%nat with true
      by (symmetry; now apply Nat.ltb_lt).
    cbn [andb].
    destruct (Forall_firstn_skipn _ k _ Hact) as [H1 _].
    rewrite (no_heart_rate_part _ H1).
    apply FloatMore.nan_mul_l, FloatMore.nan_div_l, FloatMore.nan_sub_l.
    now apply FloatMore.nan_div_r.
Qed.

Lemma ride_without_heart_rate_run :
  exists m,
    calculate_metrics [mkSample 0 PrimFloat.nan 90 150;
                       mkSample 1 PrimFloat.nan 92 160] = Some m /\
    PrimFloat.is_nan (avg_hr m) = true /\ ef m = 0 /\
    PrimFloat.is_nan (decoupling m) = true.
Proof.
  eexists. split; [reflexivity|].
  destruct (ride_without_heart_rate
              [mkSample 0 PrimFloat.nan 90 150; mkSample 1 PrimFloat.nan 92 160]
              _ eq_refl) as (H1 & H2 & H3); [repeat constructor|].
  split; [exact H1|]. split; [exact H2|]. apply H3. simpl. lia.
Defined.

Lemma whole_positive (n : nat) :
  (0 < n)%nat -> (Z.of_nat n < 2 ^ 53)%Z -> (0 <? float_of_nat n) = true.
Proof.
  intros H0 H. rewrite FloatAxioms.ltb_spec, float_of_nat_canon by assumption.
  reflexivity.
Qed.

(** On a ride with the same whole-number power and heart rate in every
    row (their sums over the ride below 2^53) the averages are those two
    numbers themselves and the efficiency factor is their ratio. *)
Theorem steady_ride_averages (df : list RideSample) (m : RideMetrics) (np nh : nat) :
  calculate_metrics df = Some m ->
  Steady (float_of_nat np) (float_of_nat nh) df ->
  (0 < nh)%nat ->
  (Z.of_nat (List.length df * np) < 2 ^ 53)%Z ->
  (Z.of_nat (List.length df * nh) < 2 ^ 53)%Z ->
  avg_pwr m = float_of_nat np /\
  avg_hr m = float_of_nat nh /\
  ef m = float_of_nat np / float_of_nat nh /\
  duration m = float_of_nat (List.length df) / 60.
Proof.
  intros Hm Hs Hnh Bp Bh.
  destruct (decoupling_halves df m Hm) as [Hne _].
  pose proof (steady_active _ _ df Hs Hne) as Hact.
  assert (Hnp : (0 < np)%nat).
  { destruct np; [|lia]. exfalso. apply Hne. unfold active_rows.
    clear -Hs. induction Hs as [|s l [Hp _] _ IH]; simpl; [reflexivity|].
    now rewrite Hp, IH. }
  assert (Hlen : (0 < List.length df)%nat).
  { destruct df; [|simpl; lia]. now elim Hne. }
  rewrite MetricsFacts.calculate_metrics_some in Hm by exact Hne.
  injection Hm as <-. cbn [avg_pwr avg_hr ef duration]. rewrite Hact.
  destruct (steady_columns _ _ df Hs) as [-> ->].
  rewrite !mean_repeat_whole by lia.
  rewrite whole_positive by nia. auto.
Qed.

Lemma steady_ride_averages_run :
  exists m,
    calculate_metrics Tables.ride_150 = Some m /\
    avg_pwr m = 150 /\ avg_hr m = 140 /\ ef m = 150 / 140.
Proof.
  eexists. split; [reflexivity|].
  destruct (steady_ride_averages Tables.ride_150 _ 150 140 eq_refl)
    as (H1 & H2 & H3 & _).
  - repeat constructor.
  - lia.
  - simpl. lia.
  - simpl. lia.
  - split; [exact H1|]. split; [exact H2 | exact H3].
Defined.

End MetricsMore.

(** ** More on [parse_file]: the page, the result and the missing columns *)

Section ParseMore.

Variable file : Type.
Variable read_csv : file -> result DataFrame.
Variable to_datetime : Series -> Series.
Variable to_numeric : Series -> Series.

Lemma silent_bind {A B} (c : M A) (k : A -> M B) :
  silent c -> (forall a, silent (k a)) -> silent (bind c k).
Proof.
  unfold silent, bind. intros Hc Hk ui. specialize (Hc ui).
  destruct (c ui) as [[a|e] ui1]; simpl in *; subst ui1; [apply Hk | reflexivity].
Qed.

Lemma silent_ret {A} (a : A) : silent (ret a).
Proof. now intros ui. Qed.

Lemma silent_getitem (k : string) (df : DataFrame) : silent (getitem k df).
Proof. unfold getitem. now destruct (column k df); intros ui. Qed.

Lemma silent_dropna (keys : list string) (df : DataFrame) : silent (dropna keys df).
Proof. unfold dropna. now destruct (filter _ keys); intros ui. Qed.

Lemma silent_parse_table (df_raw : DataFrame) :
  silent (parse_table to_datetime to_numeric df_raw).
Proof.
  unfold parse_table. apply silent_bind; [|intros; apply silent_dropna].
  destruct (is_shifted df_raw).
  - unfold remap_shifted.
    repeat (apply silent_bind; [apply silent_getitem | intros]).
    apply silent_ret.
  - unfold map_standard. destruct (has_column "power" df_raw); [|apply silent_ret].
    destruct (column "timestamp" _); apply silent_ret.
Qed.

Lemma silent_parse_body (f : file) :
  silent (parse_body file read_csv to_datetime to_numeric f).
Proof.
  unfold parse_body. apply silent_bind; [|intros; apply silent_parse_table].
  unfold lift. now intros ui.
Qed.

(** [parse_file] never touches what the page already shows: it returns
    either a table and the page as it was, or the empty table and the page
    with one error added at its end. *)
Theorem parse_file_adds_at_most_one_error (f : file) (ui : list ui_event) :
  (exists df, parse_file file read_csv to_datetime to_numeric f ui = (Ok df, ui)) \/
  (exists e, parse_file file read_csv to_datetime to_numeric f ui =
             (Ok empty_frame, ui ++ [StError e])).
Proof.
  pose proof (parse_file_cases file read_csv to_datetime to_numeric f ui) as H.
  pose proof (silent_parse_body f ui) as Hs.
  destruct (parse_body file read_csv to_datetime to_numeric f ui) as [[df|e] ui'];
    simpl in Hs; subst ui'; eauto.
Qed.

(** On the standard path a table without a [power] column is never read,
    whatever else it holds: [dropna] raises [KeyError] for both columns
    and [parse_file] reports it; with [power] but without [timestamp] the
    [KeyError] names [timestamp]. *)
Theorem standard_layout_missing_column
    (f : file) (df_raw : DataFrame) (ui : list ui_event) :
  read_csv f = Ok df_raw ->
  is_shifted df_raw = false ->
  (has_column "power" df_raw = false ->
   parse_file file read_csv to_datetime to_numeric f ui =
   (Ok empty_frame, ui ++ [StError (KeyError ["timestamp"; "power"])])) /\
  (has_column "power" df_raw = true -> has_column "timestamp" df_raw = false ->
   parse_file file read_csv to_datetime to_numeric f ui =
   (Ok empty_frame, ui ++ [StError (KeyError ["timestamp"])])).
Proof.
  intros Hread Hshift. split.
  - intros Hp. unfold parse_file, try_except, parse_body, bind, lift, parse_table, bind.
    rewrite Hread, Hshift. unfold map_standard. rewrite Hp. reflexivity.
  - intros Hp Ht. unfold parse_file, try_except, parse_body, bind, lift, parse_table, bind.
    rewrite Hread, Hshift. unfold map_standard, col_map. rewrite Hp. cbn [fold_left].
    assert (Hts : column "timestamp" df_raw = None).
    { destruct (column "timestamp" df_raw) eqn:E; [|reflexivity].
      assert (has_column "timestamp" df_raw = true)
        by (apply FrameFacts.has_column_column; eauto). congruence. }
    apply FrameFacts.has_column_column in Hp as [pw Hpw]. rewrite Hts, Hpw.
    destruct (column "heart_rate" df_raw); destruct (column "cadence" df_raw);
      reflexivity.
Qed.

(** On the shifted path the columns [altitude], [heart_rate] and [speed]
    are read in this order, and the first that is missing ends the parse
    with a [KeyError] of its name. *)
Theorem shifted_layout_missing_column (df_raw : DataFrame) (ui : list ui_event) :
  is_shifted df_raw = true ->
  (has_column "altitude" df_raw = false ->
   parse_table to_datetime to_numeric df_raw ui =
   (Raise (KeyError ["altitude"]), ui)) /\
  (has_column "altitude" df_raw = true -> has_column "heart_rate" df_raw = false ->
   parse_table to_datetime to_numeric df_raw ui =
   (Raise (KeyError ["heart_rate"]), ui)) /\
  (has_column "altitude" df_raw = true -> has_column "heart_rate" df_raw = true ->
   has_column "speed" df_raw = false ->
   parse_table to_datetime to_numeric df_raw ui =
   (Raise (KeyError ["speed"]), ui)).
Proof.
  intros Hshift.
  assert (Hg : exists g, column "GOTOES_CSV" df_raw = Some g).
  { unfold is_shifted in Hshift. destruct (column "GOTOES_CSV" df_raw); [eauto|discriminate]. }
  destruct Hg as [g Hg].
  assert (Hnone : forall k, has_column k df_raw = false -> column k df_raw = None).
  { intros k Hk. destruct (column k df_raw) eqn:E; [|reflexivity].
    assert (has_column k df_raw = true) by (apply FrameFacts.has_column_column; eauto).
    congruence. }
  unfold parse_table, bind. rewrite Hshift. unfold remap_shifted, bind, getitem.
  rewrite Hg. cbn [ret]. repeat split.
  - intros Ha. now rewrite (Hnone _ Ha).
  - intros Ha Hh. apply FrameFacts.has_column_column in Ha as [a ->]. cbn [ret].
    now rewrite (Hnone _ Hh).
  - intros Ha Hh Hs. apply FrameFacts.has_column_column in Ha as [a ->]. cbn [ret].
    apply FrameFacts.has_column_column in Hh as [h ->]. cbn [ret].
    now rewrite (Hnone _ Hs).
Qed.

End ParseMore.

(** ** The table [parse_file] returns *)

Section ParsedTable.

Variable to_datetime : Series -> Series.
Variable to_numeric : Series -> Series.

(** The two pandas routines give one value for each value they are given. *)
Hypothesis to_datetime_length :
  forall col, List.length (to_datetime col) = List.length col.
Hypothesis to_numeric_length :
  forall col, List.length (to_numeric col) = List.length col.

Lemma dropna_shape (keys : list string) (n : nat) (df : DataFrame) (ui : list ui_event) :
  well_formed n df ->
  match dropna keys df ui with
  | (Ok df', ui') =>
      ui' = ui /\
      forallb (fun k => has_column k df) keys = true /\
      columns df' = columns df /\
      (exists n', (n' <= n)%nat /\ well_formed n' df') /\
      rows df' = filter (fun r => forallb (fun k => present k r) keys) (rows df)
  | (Raise e, ui') => ui' = ui
  end.
Proof.
  intros Hwf.
  destruct (forallb (fun k => has_column k df) keys) eqn:Hkeys.
  - destruct (FrameFacts.dropna_rows keys n df ui Hwf Hkeys) as (df' & Hrun & Hcols & Hrows).
    rewrite Hrun. repeat split; try assumption.
    unfold dropna in Hrun.
    destruct (filter (fun k => negb (has_column k df)) keys); [|discriminate].
    injection Hrun as <-.
    destruct df as [|kc df0].
    { exists 0%nat. split; [lia | constructor]. }
    assert (Hne : kc :: df0 <> []) by discriminate.
    rewrite (FrameFacts.well_formed_nrows n _ Hwf Hne).
    pose proof (FrameFacts.notna_mask_length n _
                  (FrameFacts.columns_of_well_formed n keys _ Hwf)) as Hlen.
    set (mask := notna_mask n (columns_of keys (kc :: df0))) in *.
    exists (List.length (filter (fun b => b) mask)). split.
    + rewrite <- Hlen. apply filter_length_le.
    + apply FrameFacts.well_formed_sel. now rewrite Hlen.
  - unfold dropna.
    destruct (filter (fun k => negb (has_column k df)) keys) eqn:E; [|reflexivity].
    exfalso. clear Hwf. induction keys as [|k keys IH]; simpl in *; [discriminate|].
    destruct (has_column k df); simpl in *; [now apply IH | discriminate].
Qed.

(** The table before [dropna], on either path: its columns have the
    length of the raw table and are among the four clean columns. *)
Lemma normalised_shape (df_raw : DataFrame) (n : nat) (ui : list ui_event) :
  well_formed n df_raw ->
  match (if is_shifted df_raw then remap_shifted to_datetime to_numeric df_raw
         else map_standard to_datetime df_raw) ui with
  | (Ok d, ui') => ui' = ui /\ well_formed n d /\ incl (columns d) clean_columns
  | (Raise e, ui') => ui' = ui
  end.
Proof.
  intros Hwf.
  assert (Hlen : forall k col, column k df_raw = Some col -> List.length col = n)
    by (intros k col; now apply FrameFacts.well_formed_column).
  destruct (is_shifted df_raw).
  - unfold remap_shifted, bind, getitem.
    destruct (column "GOTOES_CSV" df_raw) as [g|] eqn:Hg; [|reflexivity].
    cbn [ret]. destruct (column "altitude" df_raw) as [a|] eqn:Ha; [|reflexivity].
    cbn [ret]. destruct (column "heart_rate" df_raw) as [h|] eqn:Hh; [|reflexivity].
    cbn [ret]. destruct (column "speed" df_raw) as [s|] eqn:Hs; [|reflexivity].
    cbn. split; [reflexivity|]. split.
    + repeat constructor; simpl;
        rewrite ?to_datetime_length, ?to_numeric_length; eauto.
    + unfold clean_columns. intros x Hx. exact Hx.
  - unfold map_standard, col_map. destruct (has_column "power" df_raw).
    2:{ cbn. split; [reflexivity|]. split; [constructor | intros x []]. }
    cbn [fold_left].
    destruct (column "timestamp" df_raw) as [t|] eqn:Ht;
      destruct (column "heart_rate" df_raw) as [h|] eqn:Hh;
      destruct (column "cadence" df_raw) as [c|] eqn:Hc;
      destruct (column "power" df_raw) as [p|] eqn:Hp;
      cbn; (split; [reflexivity|]); (split;
        [repeat constructor; simpl; rewrite ?to_datetime_length; eauto
        | unfold clean_columns; intros x Hx; simpl in Hx; simpl; tauto]).
Qed.

Lemma rows_complete (k : string) (n : nat) (df : DataFrame) (col : Series) :
  well_formed n df -> column k df = Some col ->
  (forall r, In r (rows df) -> present k r = true) ->
  complete col.
Proof.
  intros Hwf Hcol Hrows. apply Forall_forall. intros c Hc.
  destruct (In_nth col c NaN Hc) as (i & Hi & Hnth).
  assert (Hne : df <> []) by (destruct df; [discriminate | discriminate]).
  assert (Hn : List.length col = n) by now apply FrameFacts.well_formed_column with k df.
  assert (Hin : In (row_at i df) (rows df)).
  { unfold rows. apply (in_map (fun j => row_at j df)). apply in_seq.
    rewrite (FrameFacts.well_formed_nrows n df Hwf Hne). lia. }
  specialize (Hrows _ Hin). unfold present in Hrows.
  rewrite FrameFacts.field_row_at, Hcol in Hrows. simpl in Hrows.
  rewrite Hnth in Hrows. now apply negb_true_iff in Hrows.
Qed.

(** Whenever the parse gives a table, the table has a [timestamp] and a
    [power] column without a single missing value, all its columns have one
    length, at most that of the raw table, and it has no column besides
    [timestamp], [heart_rate], [cadence] and [power]. *)
Theorem parsed_table_is_complete
    (df_raw df : DataFrame) (n : nat) (ui ui' : list ui_event) :
  well_formed n df_raw ->
  parse_table to_datetime to_numeric df_raw ui = (Ok df, ui') ->
  (exists ts pw,
     column "timestamp" df = Some ts /\ column "power" df = Some pw /\
     complete ts /\ complete pw) /\
  (exists n', (n' <= n)%nat /\ well_formed n' df) /\
  incl (columns df) clean_columns /\
  ui' = ui.
Proof.
  intros Hwf Hrun. unfold parse_table, bind in Hrun.
  pose proof (normalised_shape df_raw n ui Hwf) as Hnorm.
  destruct ((if is_shifted df_raw then remap_shifted to_datetime to_numeric df_raw
             else map_standard to_datetime df_raw) ui) as [[d|e] ui1]; [|discriminate].
  destruct Hnorm as (-> & Hwfd & Hincl).
  pose proof (dropna_shape ["timestamp"; "power"] n d ui Hwfd) as Hdrop.
  rewrite Hrun in Hdrop.
  destruct Hdrop as (-> & Hkeys & Hcols & (n' & Hle & Hwf') & Hrows).
  simpl in Hkeys. rewrite andb_true_r in Hkeys.
  apply andb_true_iff in Hkeys as [Hts Hpw].
  assert (Hsame : forall k, has_column k df = has_column k d)
    by (intros k; unfold has_column; now rewrite Hcols).
  rewrite <- Hsame in Hts, Hpw.
  apply FrameFacts.has_column_column in Hts as [ts Hts].
  apply FrameFacts.has_column_column in Hpw as [pw Hpw].
  assert (Hpresent : forall r, In r (rows df) ->
            present "timestamp" r = true /\ present "power" r = true).
  { intros r Hr. rewrite Hrows in Hr. apply filter_In in Hr as [_ Hr].
    simpl in Hr. rewrite andb_true_r in Hr. now apply andb_true_iff in Hr. }
  split; [|split; [|split]].
  - exists ts, pw. repeat split; try assumption.
    + apply rows_complete with "timestamp" n' df; try assumption.
      intros r Hr. now apply Hpresent.
    + apply rows_complete with "power" n' df; try assumption.
      intros r Hr. now apply Hpresent.
  - now exists n'.
  - now rewrite Hcols.
  - reflexivity.
Qed.

(** On the shifted path a table with the columns [altitude], [heart_rate]
    and [speed] is normalised without an exception: the marker column gives
    the timestamps, [altitude] the heart rates, [heart_rate] the cadences
    and [speed] the powers, each coerced, and the result holds, in their
    original order, exactly the rows with a timestamp and a power value. *)
Theorem shifted_layout_rows
    (df_raw : DataFrame) (n : nat) (a h s : Series) (ui : list ui_event) :
  well_formed n df_raw ->
  is_shifted df_raw = true ->
  column "altitude" df_raw = Some a ->
  column "heart_rate" df_raw = Some h ->
  column "speed" df_raw = Some s ->
  exists g df_clean,
    column "GOTOES_CSV" df_raw = Some g /\
    parse_table to_datetime to_numeric df_raw ui = (Ok df_clean, ui) /\
    columns df_clean = clean_columns /\
    rows df_clean =
    filter (fun r => present "timestamp" r && present "power" r)
           (rows [("timestamp", to_datetime g); ("heart_rate", to_numeric a);
                  ("cadence", to_numeric h); ("power", to_numeric s)]).
Proof.
  intros Hwf Hshift Ha Hh Hs.
  assert (Hg : exists g, column "GOTOES_CSV" df_raw = Some g).
  { unfold is_shifted in Hshift. destruct (column "GOTOES_CSV" df_raw); [eauto|discriminate]. }
  destruct Hg as [g Hg]. exists g.
  set (d := [("timestamp", to_datetime g); ("heart_rate", to_numeric a);
             ("cadence", to_numeric h); ("power", to_numeric s)]).
  assert (Hlen : forall k col, column k df_raw = Some col -> List.length col = n)
    by (intros k col; now apply FrameFacts.well_formed_column).
  assert (Hwfd : well_formed n d).
  { unfold d. repeat constructor; simpl;
      rewrite ?to_datetime_length, ?to_numeric_length; eauto. }
  destruct (FrameFacts.dropna_rows ["timestamp"; "power"] n d ui Hwfd eq_refl)
    as (df_clean & Hdrop & Hcols & Hrows).
  exists df_clean. split; [exact Hg|]. split; [|split].
  - unfold parse_table, bind. rewrite Hshift.
    unfold remap_shifted, bind, getitem. rewrite Hg, Ha, Hh, Hs. cbn [ret].
    exact Hdrop.
  - exact Hcols.
  - rewrite Hrows. apply filter_ext. intros r. simpl. now rewrite andb_true_r.
Qed.

End ParsedTable.

(** ** The main app interface *)

Module Interface.

Lemma every_nth {A} (step : nat) (d : A) (l : list A) :
  (0 < step)%nat ->
  forall skip k, nth k (every step skip l) d = nth (skip + k * step) l d.
Proof.
  intros Hstep. induction l as [|x l IH]; intros skip k.
  - assert (Hnil : forall i, nth i (@nil A) d = d) by (intros []; reflexivity).
    simpl every. now rewrite !Hnil.
  - destruct skip as [|j]; simpl.
    + destruct k as [|k]; [reflexivity|]. rewrite IH. simpl.
      replace (step - 1 + k * step)%nat with (Nat.pred (step + k * step)) by lia.
      destruct (step + k * step)%nat eqn:E; [lia | reflexivity].
    + apply IH.
Qed.

Lemma every_length {A} (step : nat) (l : list A) :
  (0 < step)%nat ->
  forall skip,
    List.length (every step skip l) =
    Nat.div (List.length l + step - 1 - skip) step.
Proof.
  intros Hstep. induction l as [|x l IH]; intros skip.
  - simpl. symmetry. apply Nat.div_small. lia.
  - destruct skip as [|j]; cbn [every List.length].
    + rewrite IH.
      replace (List.length l + step - 1 - (step - 1))%nat with (List.length l) by lia.
      replace (S (List.length l) + step - 1 - 0)%nat
        with (List.length l + 1 * step)%nat by lia.
      rewrite Nat.div_add by lia. lia.
    + rewrite IH. f_equal. lia.
Qed.



Lemma markdown_items_app (p q : list widget) :
  markdown_items (p ++ q) = markdown_items p ++ markdown_items q.
Proof. unfold markdown_items. apply flat_map_app. Qed.

Lemma markdown_items_map (l : list message) :
  markdown_items (map StMarkdown l) = l.
Proof. induction l as [|x l IH]; simpl; [reflexivity | now rewrite IH]. Qed.

(** What [main_interface] shows when the script runs to its end. *)
Lemma main_interface_shown (df : list RideSample) (page : list widget) :
  df <> [] -> main_interface df = Shown page ->
  exists m, calculate_metrics df = Some m /\ page = ride_page df m.
Proof.
  intros Hne Hrun. unfold main_interface in Hrun.
  destruct df as [|s0 df0]; [congruence|].
  destruct (calculate_metrics (s0 :: df0)) as [m|]; [|discriminate].
  exists m. split; [reflexivity|]. cbv zeta in Hrun.
  injection Hrun as <-. unfold ride_page. now rewrite <- !app_assoc.
Qed.

Lemma feedback_length (m : RideMetrics) :
  (1 <= List.length (generate_coach_feedback m) <= 3)%nat.
Proof.
  unfold generate_coach_feedback.
  CoachRules.power_and_decoupling m;
    (destruct (avg_cad m <? 85); [| destruct (90 <? avg_cad m)]); simpl; lia.
Qed.

(** The page of a ride, when the script runs to its end on a table with
    rows: the coach messages on it are the feedback for the metrics of the
    table, and the page has the four columns, four metric tiles, two
    headers and two charts besides, hence 10 to 12 widgets, none of them
    the warning. *)
Theorem page_of_a_ride (df : list RideSample) (page : list widget) :
  df <> [] ->
  main_interface df = Shown page ->
  exists m,
    calculate_metrics df = Some m /\
    markdown_items page = generate_coach_feedback m /\
    firstn 5 page = [StColumns 4; StMetric "Avg Power" (avg_pwr m);
                     StMetric "Avg HR" (avg_hr m);
                     StMetric "Decoupling" (decoupling m);
                     StMetric "Efficiency (EF)" (ef m)] /\
    (10 <= List.length page <= 12)%nat /\
    (forall text, ~ In (StWarning text) page).
Proof.
  intros Hne Hrun.
  destruct (main_interface_shown df page Hne Hrun) as (m & Hm & ->).
  exists m. split; [exact Hm|]. unfold ride_page.
  split; [|split; [|split]].
  - rewrite !markdown_items_app, markdown_items_map. simpl. apply app_nil_r.
  - reflexivity.
  - rewrite !length_app, length_map. pose proof (feedback_length m). simpl. lia.
  - intros text Hin. rewrite !in_app_iff, in_map_iff in Hin. simpl in Hin.
    destruct Hin as [H|[(y & H & _)|H]]; try discriminate.
    + repeat (destruct H as [H|H]; [discriminate|]). exact H.
    + repeat (destruct H as [H|H]; [discriminate|]). exact H.
Qed.

Lemma page_of_a_ride_run :
  exists m,
    calculate_metrics Tables.ride_150 = Some m /\
    markdown_items
      (match main_interface Tables.ride_150 with
       | Shown page | TypeError page => page
       end) = generate_coach_feedback m.
Proof.
  destruct (page_of_a_ride Tables.ride_150 _ ltac:(discriminate) eq_refl)
    as (m & Hm & Hitems & _).
  exists m. split; [exact Hm | exact Hitems].
Defined.

(** The power and heart-rate chart draws one row in ten: for a table of
    [n] rows it has [(n + 9) / 10] points, and its point [k] is row
    [10 * k] of the table. *)
Theorem chart_draws_every_tenth_row
    (df : list RideSample) (page : list widget)
    (x : list Z) (watts bpm : list float) :
  main_interface df = Shown page ->
  In (PowerHrChart x watts bpm) page ->
  List.length x = Nat.div (List.length df + 9) 10 /\
  List.length watts = List.length x /\
  List.length bpm = List.length x /\
  forall k d,
    (k < List.length x)%nat ->
    nth k x (timestamp d) = timestamp (nth (10 * k) df d) /\
    nth k watts (power d) = power (nth (10 * k) df d) /\
    nth k bpm (heart_rate d) = heart_rate (nth (10 * k) df d).
Proof.
  intros Hrun Hin.
  assert (Hne : df <> []).
  { intros ->. unfold main_interface in Hrun. injection Hrun as <-.
    destruct Hin as [H|[]]. discriminate. }
  destruct (main_interface_shown df page Hne Hrun) as (m & Hm & ->).
  unfold ride_page in Hin.
  assert (Hchart : PowerHrChart (map timestamp (iloc_step 10 df))
                                (map power (iloc_step 10 df))
                                (map heart_rate (iloc_step 10 df))
                   = PowerHrChart x watts bpm).
  { rewrite !in_app_iff, in_map_iff in Hin.
    destruct Hin as [H|[(y & H & _)|H]]; try discriminate.
    - repeat (destruct H as [H|H]; [discriminate|]). destruct H.
    - destruct H as [H|[H|[H|[]]]]; try discriminate. exact H. }
  injection Hchart as <- <- <-. rewrite !length_map. unfold iloc_step.
  rewrite every_length by lia.
  replace (List.length df + 10 - 1 - 0)%nat with (List.length df + 9)%nat by lia.
  repeat split; rewrite map_nth, every_nth by lia; do 2 f_equal; lia.
Qed.

Lemma chart_draws_every_tenth_row_run :
  List.length [0; 10; 20]%Z = Nat.div (List.length Tables.ride_21 + 9) 10 /\
  nth 2 [0; 10; 20]%Z 0%Z = timestamp (nth 20 Tables.ride_21 (mkSample 0 0 0 0)).
Proof.
  set (page := match main_interface Tables.ride_21 with
               | Shown p | TypeError p => p
               end).
  assert (Hrun : main_interface Tables.ride_21 = Shown page)
    by (vm_compute; reflexivity).
  assert (Hin : In (PowerHrChart [0; 10; 20]%Z [150; 150; 150] [140; 140; 140]) page)
    by (vm_compute; do 9 right; left; reflexivity).
  destruct (chart_draws_every_tenth_row Tables.ride_21 page _ _ _ Hrun Hin)
    as (H1 & _ & _ & H4).
  split; [exact H1|].
  exact (proj1 (H4 2%nat (mkSample 0 0 0 0) ltac:(simpl; lia))).
Defined.

End Interface.

(** ** The parse theorems on concrete tables *)

Module ParseRuns.

Import Tables.

Lemma demo_to_datetime_length (col : Series) :
  List.length (demo_to_datetime col) = List.length col.
Proof. apply length_map. Defined.

Lemma demo_to_numeric_length (col : Series) :
  List.length (demo_to_numeric col) = List.length col.
Proof. apply length_map. Defined.

(** [numeric_marker_table] goes through the standard layout. *)
Lemma standard_layout_rows_run :
  exists df_norm df_clean,
    map_standard demo_to_datetime numeric_marker_table [] = (Ok df_norm, []) /\
    column "timestamp" df_norm =
    Some (demo_to_datetime [CStr "2024-01-01 10:00:00"; CStr "2024-01-01 10:00:01"]) /\
    column "power" df_norm = Some [CInt 150; CInt 151] /\
    column "heart_rate" df_norm = column "heart_rate" numeric_marker_table /\
    column "cadence" df_norm = column "cadence" numeric_marker_table /\
    parse_table demo_to_datetime demo_to_numeric numeric_marker_table [] =
    (Ok df_clean, []) /\
    rows df_clean =
    filter (fun r => present "timestamp" r && present "power" r) (rows df_norm).
Proof.
  apply (standard_layout_rows demo_to_datetime demo_to_numeric
           numeric_marker_table 2 _ _ []); try reflexivity.
  repeat constructor.
Defined.

(** [shifted_table] goes through the shifted layout. *)
Lemma shifted_layout_rows_run :
  exists g df_clean,
    column "GOTOES_CSV" shifted_table = Some g /\
    parse_table demo_to_datetime demo_to_numeric shifted_table [] = (Ok df_clean, []) /\
    columns df_clean = clean_columns /\
    rows df_clean =
    filter (fun r => present "timestamp" r && present "power" r)
           (rows [("timestamp", demo_to_datetime g);
                  ("heart_rate", demo_to_numeric [CInt 140; CInt 141]);
                  ("cadence", demo_to_numeric [CInt 90; CInt 91]);
                  ("power", demo_to_numeric [CStr "150"; CStr "abc"])]).
Proof.
  apply (shifted_layout_rows demo_to_datetime demo_to_numeric
           demo_to_datetime_length demo_to_numeric_length shifted_table 2);
    try reflexivity.
  repeat constructor.
Defined.

(** The table parsed from [shifted_table] is complete. *)
Lemma parsed_table_is_complete_run :
  (exists ts pw,
     column "timestamp" [("timestamp", [CTime 0]); ("heart_rate", [CInt 140]);
                         ("cadence", [CInt 90]); ("power", [CInt 150])] = Some ts /\
     column "power" [("timestamp", [CTime 0]); ("heart_rate", [CInt 140]);
                     ("cadence", [CInt 90]); ("power", [CInt 150])] = Some pw /\
     complete ts /\ complete pw) /\
  (exists n', (n' <= 2)%nat /\
     well_formed n' [("timestamp", [CTime 0]); ("heart_rate", [CInt 140]);
                     ("cadence", [CInt 90]); ("power", [CInt 150])]).
Proof.
  destruct (parsed_table_is_complete demo_to_datetime demo_to_numeric
              demo_to_datetime_length demo_to_numeric_length
              shifted_table _ 2 [] [] ltac:(repeat constructor) eq_refl)
    as (H1 & H2 & _).
  split; [exact H1 | exact H2].
Defined.

(** A file whose table has no [power] column. *)
Lemma standard_layout_missing_column_run :
  parse_file unit (fun _ => Ok [("timestamp", [CStr "2024-01-01 10:00:00"])])
             demo_to_datetime demo_to_numeric tt [] =
  (Ok empty_frame, [StError (KeyError ["timestamp"; "power"])]).
Proof.
  exact (proj1 (standard_layout_missing_column
                  unit (fun _ => Ok [("timestamp", [CStr "2024-01-01 10:00:00"])])
                  demo_to_datetime demo_to_numeric tt _ [] eq_refl eq_refl)
               eq_refl).
Defined.

(** A shifted table without the [altitude] column. *)
Lemma shifted_layout_missing_column_run :
  parse_table demo_to_datetime demo_to_numeric
              [("GOTOES_CSV", [CStr "2024-01-01T10:00:00"]); ("speed", [CInt 150])] [] =
  (Raise (KeyError ["altitude"]), []).
Proof.
  exact (proj1 (shifted_layout_missing_column
                  demo_to_datetime demo_to_numeric
                  [("GOTOES_CSV", [CStr "2024-01-01T10:00:00"]); ("speed", [CInt 150])]
                  [] eq_refl)
               eq_refl).
Defined.

End ParseRuns.

(** ** Products and square roots of whole numbers in binary64 *)

Module WholeMore.

Import WholeNumbers.

Local Open Scope Z_scope.

Lemma SFmul_finite (m1 m2 : positive) (e1 e2 : Z) :
  SF64mul (S754_finite false m1 e1) (S754_finite false m2 e2) =
  binary_round_aux prec emax false (Z.pos m1 * Z.pos m2) (e1 + e2) loc_Exact.
Proof. reflexivity. Qed.

(** Multiplying two whole numbers is exact while the product stays below
    2^53. *)
Lemma mul_exact (a b : Z) :
  0 < a -> 0 < b -> a * b < 2 ^ 53 ->
  SF64mul (canon a) (canon b) = canon (a * b).
Proof.
  intros Ha Hb Hab.
  assert (Ha' : 0 < a < 2 ^ 53) by nia.
  assert (Hb' : 0 < b < 2 ^ 53) by nia.
  assert (Hab' : 0 < a * b < 2 ^ 53) by nia.
  pose proof (log2_bound _ Ha') as Hla.
  pose proof (log2_bound _ Hb') as Hlb.
  pose proof (log2_bound _ Hab') as Hlab.
  pose proof (Z.log2_mul_below a b Ha Hb) as Hbelow.
  unfold canon at 1 2. rewrite SFmul_finite, !canon_pos by lia.
  replace (a * 2 ^ (52 - Z.log2 a) * (b * 2 ^ (52 - Z.log2 b)))
    with (a * b * 2 ^ (104 - Z.log2 a - Z.log2 b)).
  - rewrite (round_exact (a * b) _ (Z.log2 (a * b) + 52 - Z.log2 a - Z.log2 b) _ false)
      by lia.
    unfold canon.
    replace (104 - Z.log2 a - Z.log2 b - (Z.log2 (a * b) + 52 - Z.log2 a - Z.log2 b))
      with (52 - Z.log2 (a * b)) by lia.
    replace (Z.log2 a - 52 + (Z.log2 b - 52)
             + (Z.log2 (a * b) + 52 - Z.log2 a - Z.log2 b))
      with (Z.log2 (a * b) - 52) by lia.
    reflexivity.
  - replace (104 - Z.log2 a - Z.log2 b) with ((52 - Z.log2 a) + (52 - Z.log2 b)) by lia.
    rewrite Z.pow_add_r by lia. ring.
Qed.

Lemma SFsqrt_finite (m : positive) (e : Z) :
  SF64sqrt (S754_finite false m e) =
  let '(mz, ez, lz) := SFsqrt_core_binary prec emax (Z.pos m) e in
  binary_round_aux prec emax false mz ez lz.
Proof. reflexivity. Qed.

Lemma SFsqrt_core_unfold (m e : Z) :
  SFsqrt_core_binary prec emax m e =
  let d := Zdigits2 m in
  let e' := Z.min (fexp prec emax (Z.div2 (d + e + 1))) (Z.div2 e) in
  let s := e - 2 * e' in
  let m' := match s with
            | Z.pos _ => Z.shiftl m s
            | Z0 => m
            | Z.neg _ => 0
            end in
  let (q, r) := Z.sqrtrem m' in
  let l := if Z.eqb r 0 then loc_Exact
           else loc_Inexact (if Z.leb r q then Lt else Gt) in
  (q, e', l).
Proof. reflexivity. Qed.

Lemma sqrtrem_square (q : Z) : 0 < q -> Z.sqrtrem (q * q) = (q, 0).
Proof.
  intros Hq. pose proof (Z.sqrtrem_spec (q * q) ltac:(nia)) as H.
  destruct (Z.sqrtrem (q * q)) as [s r]. destruct H as [H1 H2].
  assert (s = q) by nia. subst s. f_equal. lia.
Qed.

Lemma log2_square (p : Z) : 0 < p -> Z.log2 (p * p) / 2 = Z.log2 p.
Proof.
  intros Hp.
  pose proof (Z.log2_mul_below p p Hp Hp).
  pose proof (Z.log2_mul_above p p ltac:(lia) ltac:(lia)).
  symmetry. apply Z.div_unique with (Z.log2 (p * p) - 2 * Z.log2 p); lia.
Qed.

(** The square root of a square below 2^53 is exact. *)
Lemma sqrt_exact (p : Z) :
  0 < p -> p * p < 2 ^ 53 -> SF64sqrt (canon (p * p)) = canon p.
Proof.
  intros Hp Hpp.
  assert (Hp' : 0 < p < 2 ^ 53) by nia.
  assert (Hpp' : 0 < p * p < 2 ^ 53) by nia.
  pose proof (log2_bound _ Hp') as Hlp.
  pose proof (log2_bound _ Hpp') as Hlpp.
  pose proof (log2_square p Hp) as Hhalf.
  pose proof (Z.log2_mul_below p p Hp Hp) as Hbelow.
  pose proof (Z.log2_mul_above p p ltac:(lia) ltac:(lia)) as Habove.
  set (L := Z.log2 (p * p)) in *. set (l := Z.log2 p) in *.
  unfold canon at 1. fold L. rewrite SFsqrt_finite, SFsqrt_core_unfold.
  cbn [Zdigits2]. rewrite digits2_log2, canon_log2 by lia.
  rewrite !Z.div2_div.
  replace ((52 + 1 + (L - 52) + 1) / 2) with (l + 1)
    by (apply Z.div_unique with (L - 2 * l); lia).
  replace ((L - 52) / 2) with (l - 26)
    by (apply Z.div_unique with (L - 2 * l); lia).
  rewrite fexp_small by lia.
  replace (Z.min (l + 1 - 53) (l - 26)) with (l - 52) by lia.
  cbv zeta.
  assert (Hs : L - 52 - 2 * (l - 52) = 52 + (L - 2 * l)) by lia.
  rewrite Hs.
  assert (Hm' : match 52 + (L - 2 * l) with
                | 0 => Z.pos (Z.to_pos (p * p * 2 ^ (52 - L)))
                | Z.pos _ => Z.shiftl (Z.pos (Z.to_pos (p * p * 2 ^ (52 - L))))
                                      (52 + (L - 2 * l))
                | Z.neg _ => 0
                end = (p * 2 ^ (52 - l)) * (p * 2 ^ (52 - l))).
  { destruct (52 + (L - 2 * l)) as [|s|s] eqn:E; try lia.
    rewrite Z.shiftl_mul_pow2 by lia. unfold L at 1. rewrite canon_pos by lia. fold L.
    rewrite <- E.
    replace (p * 2 ^ (52 - l) * (p * 2 ^ (52 - l)))
      with (p * p * (2 ^ (52 - l) * 2 ^ (52 - l))) by ring.
    rewrite <- Z.mul_assoc, <- !Z.pow_add_r by lia. do 2 f_equal. lia. }
  rewrite Hm', sqrtrem_square
    by (apply Z.mul_pos_pos; [lia | apply Z.pow_pos_nonneg; lia]).
  cbn [Z.eqb].
  rewrite (round_exact p (52 - l) 0 (l - 52) false) by lia.
  unfold canon. fold l.
  replace (52 - l - 0) with (52 - l) by lia.
  replace (l - 52 + 0) with (l - 52) by lia.
  reflexivity.
Qed.

End WholeMore.

(** ** The normalised-power proxy of a ride at constant power *)

Module NormPower.

Import WholeNumbers WholeMore SteadyFacts.

Lemma mul_whole (a b : nat) :
  (0 < a)%nat -> (0 < b)%nat -> (Z.of_nat (a * b) < 2 ^ 53)%Z ->
  float_of_nat a * float_of_nat b = float_of_nat (a * b).
Proof.
  intros Ha Hb H. apply Prim2SF_inj. rewrite mul_spec.
  rewrite !float_of_nat_canon by nia.
  rewrite Nat2Z.inj_mul. apply mul_exact; lia.
Qed.

Lemma sqrt_whole (p : nat) :
  (0 < p)%nat -> (Z.of_nat (p * p) < 2 ^ 53)%Z ->
  PrimFloat.sqrt (float_of_nat (p * p)) = float_of_nat p.
Proof.
  intros Hp H. apply Prim2SF_inj. rewrite sqrt_spec.
  rewrite !float_of_nat_canon by nia.
  rewrite Nat2Z.inj_mul. apply sqrt_exact; lia.
Qed.

Lemma constant_power_active (p : float) (df : list RideSample) :
  Forall (fun s => power s = p) df -> active_rows df <> [] -> active_rows df = df.
Proof.
  intros Hs Hne. unfold active_rows in *.
  assert (Hp : (10 <? p) = true).
  { destruct (filter _ df) as [|s l] eqn:E; [congruence|].
    assert (Hin : In s (filter (fun s => 10 <? power s) df)) by (rewrite E; now left).
    apply filter_In in Hin as [Hin Hs10].
    rewrite Forall_forall in Hs. now rewrite <- (Hs _ Hin). }
  clear Hne. induction Hs as [|s l Hsp _ IH]; simpl; [reflexivity|].
  now rewrite Hsp, Hp, IH.
Qed.

(** On a ride with the same whole-number power in every row the
    normalised-power proxy, the root of the mean of the squares, is that
    power itself and so equals the average power, as long as the squares
    add up to less than 2^53. *)
Theorem constant_power_norm_power (df : list RideSample) (m : RideMetrics) (np : nat) :
  calculate_metrics df = Some m ->
  Forall (fun s => power s = float_of_nat np) df ->
  (Z.of_nat (List.length df * (np * np)) < 2 ^ 53)%Z ->
  norm_pwr m = float_of_nat np /\ avg_pwr m = float_of_nat np.
Proof.
  intros Hm Hs Hb.
  destruct (decoupling_halves df m Hm) as [Hne _].
  pose proof (constant_power_active _ df Hs Hne) as Hact.
  assert (Hnp : (0 < np)%nat).
  { destruct np; [|lia]. exfalso. apply Hne. unfold active_rows.
    clear -Hs. induction Hs as [|s l Hp _ IH]; simpl; [reflexivity|].
    now rewrite Hp, IH. }
  assert (Hlen : (0 < List.length df)%nat).
  { destruct df; [|simpl; lia]. now elim Hne. }
  rewrite MetricsFacts.calculate_metrics_some in Hm by exact Hne.
  injection Hm as <-. cbn [norm_pwr avg_pwr]. rewrite Hact.
  assert (Hsq : map (fun s => power s * power s) df =
                repeat (float_of_nat (np * np)) (List.length df)).
  { assert (Hmul : float_of_nat np * float_of_nat np = float_of_nat (np * np))
      by (apply mul_whole; nia).
    clear -Hs Hmul. induction Hs as [|s l Hp _ IH]; simpl; [reflexivity|].
    now rewrite Hp, Hmul, IH. }
  assert (Hpw : map power df = repeat (float_of_nat np) (List.length df)).
  { clear -Hs. induction Hs as [|s l Hp _ IH]; simpl; [reflexivity|].
    now rewrite Hp, IH. }
  rewrite Hsq, Hpw, !mean_repeat_whole by nia.
  split; [apply sqrt_whole; nia | reflexivity].
Qed.

Lemma constant_power_norm_power_run :
  exists m,
    calculate_metrics Tables.ride_150 = Some m /\
    norm_pwr m = 150 /\ avg_pwr m = 150.
Proof.
  eexists. split; [reflexivity|].
  apply (constant_power_norm_power Tables.ride_150 _ 150 eq_refl).
  - repeat constructor.
  - vm_compute. reflexivity.
Defined.

End NormPower.

(** ** The coaching rules on concrete metrics *)

Module CoachRuns.

(** The metrics of a ride without heart-rate data: the Drift alert. *)
Lemma nan_decoupling_gives_drift_alert_run :
  messages_of DecouplingCheck
    (generate_coach_feedback (mkMetrics 60 150 151 PrimFloat.nan 88 0 PrimFloat.nan)) =
  [DriftAlert PrimFloat.nan].
Proof.
  exact (CoachRules.nan_decoupling_gives_drift_alert
           (mkMetrics 60 150 151 PrimFloat.nan 88 0 PrimFloat.nan) eq_refl).
Defined.

(** An average power of 120 W lies in the first gap of the power rule. *)
Lemma power_rule_gaps_run :
  messages_of PowerCheck
    (generate_coach_feedback (mkMetrics 60 120 121 140 88 1 2)) = [].
Proof.
  exact (proj1 (CoachRules.power_rule_gaps (mkMetrics 60 120 121 140 88 1 2))
               eq_refl eq_refl).
Defined.

(** An average power of 150 W is in the High-Z2 zone. *)
Lemma power_message_by_zone_run :
  messages_of PowerCheck
    (generate_coach_feedback (mkMetrics 60 150 151 140 88 1 2)) = [HighZ2].
Proof.
  exact (proj1 (proj2 (proj2 (CoachRules.power_message_by_zone
                                (mkMetrics 60 150 151 140 88 1 2))))
               eq_refl eq_refl).
Defined.

(** An average cadence of 80 gives the Grind warning. *)
Lemma cadence_message_by_zone_run :
  messages_of CadenceCheck
    (generate_coach_feedback (mkMetrics 60 150 151 140 80 1 2)) = [GrindWarning].
Proof.
  exact (proj1 (CoachRules.cadence_message_by_zone (mkMetrics 60 150 151 140 80 1 2))
               eq_refl).
Defined.

End CoachRuns.

(** ** Blank cells of the marker column *)

Module MarkerFacts.




End MarkerFacts.
